(** * CLIP Interrogator extension: session manager

    A shallow embedding of [scripts/clip_interrogator_ext.py]: the module-level
    engine [ci], [load], [unload], [image_analysis] and [image_to_prompt].

    The script is glue between two collaborators whose code lives elsewhere:
    the interrogation library ([clip_interrogator], [open_clip], [torch]) and
    the host application ([modules.shared], [modules.devices],
    [modules.lowvram]).  Their routines are taken as parameters (record
    [Provider]); everything the script itself does -- reading and writing the
    global, branching, catching exceptions, the order of the calls -- is
    written out below, statement by statement. *)

From stdpp Require Import base strings list gmap.
From Stdlib Require Import ZArith Lia.

Local Open Scope string_scope.
Local Open Scope Z_scope.
Local Open Scope list_scope.

(** ** Values *)

(** [torch.device]: [devices.cpu] and whatever [get_optimal_device] returns. *)
Inductive Device :=
| cpu
| cuda (index : nat)
| mps.

#[global] Instance Device_eq_dec : EqDecision Device.
Proof. solve_decision. Defined.

(** A [torch.nn.Module]: which weights it holds and where they live.
    [m.to(d)] moves the weights and returns the module. *)
Record Model := mkModel {
  weights : string;
  placed_on : Device
}.

Definition to (m : Model) (d : Device) : Model :=
  {| weights := weights m; placed_on := d |}.

(** [clip_interrogator.Config]: the attributes the script sets.
    [low_vram_defaults] records that [apply_low_vram_defaults()] ran. *)
Record Config := mkConfig {
  device : Device;
  clip_model_name : string;
  cache_path : string;
  low_vram_defaults : bool
}.

#[global] Instance Config_eq_dec : EqDecision Config.
Proof. solve_decision. Defined.

(** [Config(device=..., clip_model_name=...)] *)
Definition Config_new (d : Device) (name : string) : Config :=
  {| device := d; clip_model_name := name; cache_path := "cache";
     low_vram_defaults := false |}.

Definition set_cache_path (c : Config) (p : string) : Config :=
  {| device := device c; clip_model_name := clip_model_name c;
     cache_path := p; low_vram_defaults := low_vram_defaults c |}.

Definition set_clip_model_name (c : Config) (name : string) : Config :=
  {| device := device c; clip_model_name := name;
     cache_path := cache_path c; low_vram_defaults := low_vram_defaults c |}.

Definition apply_low_vram_defaults (c : Config) : Config :=
  {| device := device c; clip_model_name := clip_model_name c;
     cache_path := cache_path c; low_vram_defaults := true |}.

(** [clip_interrogator.Interrogator]: the attributes the script reads or
    writes, and [oid], the identity of the Python object. *)
Record Interrogator := mkInterrogator {
  oid : nat;
  config : Config;
  blip_model : Model;
  clip_model : Model;
  blip_offloaded : bool;
  clip_offloaded : bool
}.

(** What the constructor leaves in a new engine besides its config. *)
Record Built := mkBuilt {
  built_blip : Model;
  built_clip : Model;
  built_blip_offloaded : bool;
  built_clip_offloaded : bool
}.

Definition set_config (e : Interrogator) (c : Config) : Interrogator :=
  {| oid := oid e; config := c; blip_model := blip_model e;
     clip_model := clip_model e; blip_offloaded := blip_offloaded e;
     clip_offloaded := clip_offloaded e |}.

Definition set_blip_model (e : Interrogator) (m : Model) : Interrogator :=
  {| oid := oid e; config := config e; blip_model := m;
     clip_model := clip_model e; blip_offloaded := blip_offloaded e;
     clip_offloaded := clip_offloaded e |}.

Definition set_clip_model (e : Interrogator) (m : Model) : Interrogator :=
  {| oid := oid e; config := config e; blip_model := blip_model e;
     clip_model := m; blip_offloaded := blip_offloaded e;
     clip_offloaded := clip_offloaded e |}.

Definition set_blip_offloaded (e : Interrogator) (b : bool) : Interrogator :=
  {| oid := oid e; config := config e; blip_model := blip_model e;
     clip_model := clip_model e; blip_offloaded := b;
     clip_offloaded := clip_offloaded e |}.

Definition set_clip_offloaded (e : Interrogator) (b : bool) : Interrogator :=
  {| oid := oid e; config := config e; blip_model := blip_model e;
     clip_model := clip_model e; blip_offloaded := blip_offloaded e;
     clip_offloaded := b |}.

(** ** Exceptions *)

(** Exception classes, each with its base class.  [OutOfMemoryError] is
    [torch.cuda.OutOfMemoryError], which derives from [RuntimeError];
    [Derived] is any other class, given by its qualified name and base. *)
Inductive ExcClass :=
| Exception
| RuntimeError
| OutOfMemoryError
| AttributeError
| NameError
| UnboundLocalError
| Derived (qualname : string) (base : ExcClass).

#[global] Instance ExcClass_eq_dec : EqDecision ExcClass.
Proof. solve_decision. Defined.

(** The method resolution order: the class followed by its ancestors. *)
Fixpoint mro (c : ExcClass) : list ExcClass :=
  match c with
  | Exception => [Exception]
  | RuntimeError => [RuntimeError; Exception]
  | OutOfMemoryError => [OutOfMemoryError; RuntimeError; Exception]
  | AttributeError => [AttributeError; Exception]
  | NameError => [NameError; Exception]
  | UnboundLocalError => [UnboundLocalError; NameError; Exception]
  | Derived _ b => c :: mro b
  end.

Definition issubclass (c d : ExcClass) : bool := bool_decide (d ∈ mro c).

Definition class_name (c : ExcClass) : string :=
  match c with
  | Exception => "Exception"
  | RuntimeError => "RuntimeError"
  | OutOfMemoryError => "torch.cuda.OutOfMemoryError"
  | AttributeError => "AttributeError"
  | NameError => "NameError"
  | UnboundLocalError => "UnboundLocalError"
  | Derived n _ => n
  end.

(** [str(type(e))], as an f-string renders [{type(e)}]. *)
Definition type_repr (c : ExcClass) : string :=
  "<class '" +:+ class_name c +:+ "'>".

(** A raised exception: its class and [str(e)]. *)
Record Exc := mkExc {
  exc_type : ExcClass;
  exc_str : string
}.

Definition isinstance (e : Exc) (c : ExcClass) : bool := issubclass (exc_type e) c.

Inductive Outcome (A : Type) :=
| Returns (a : A)
| Raises (e : Exc).

Arguments Returns {A} a.
Arguments Raises {A} e.

(** The call came back with a value. *)
Definition returned {A} (r : Outcome A) : bool :=
  match r with Returns _ => true | Raises _ => false end.

(** ** What the outside world sees *)

(** The five label tables of the engine. *)
Inductive Category := mediums | artists | movements | trendings | flavors.

#[global] Instance Category_eq_dec : EqDecision Category.
Proof. solve_decision. Defined.

(** The four modes offered by the prompt tab. *)
Inductive Routine :=
| Interrogate
| InterrogateClassic
| InterrogateFast
| InterrogateNegative.

#[global] Instance Routine_eq_dec : EqDecision Routine.
Proof. solve_decision. Defined.

(** Calls that leave the script, in the order they are made. *)
Inductive Event :=
| EvPrint (line : string)
| EvJobBegin
| EvJobSet (job : string)
| EvJobEnd
| EvSendEverythingToCpu
| EvTorchGc
| EvApplyLowVramDefaults
| EvConstruct (engine : nat) (cfg : Config)
| EvLoadClipModel (engine : nat) (name : string)
| EvConvert (fmt : string)
| EvImageToFeatures
| EvRank (table : Category) (top_count : nat)
| EvSimilarities (labels : list string)
| EvInterrogate (routine : Routine).

#[global] Instance Event_eq_dec : EqDecision Event.
Proof. solve_decision. Defined.

(** An event that builds an engine or loads vision-model weights into it. *)
Definition is_engine_load (ev : Event) : bool :=
  match ev with
  | EvConstruct _ _ | EvLoadClipModel _ _ => true
  | _ => false
  end.

Definition is_construct (ev : Event) : bool :=
  match ev with
  | EvConstruct _ _ => true
  | _ => false
  end.

Definition count_event (ev : Event) (tr : list Event) : nat :=
  length (filter (λ x, x = ev) tr).

(** ** The collaborators *)

(** [W] is the state of everything outside the script (accelerator memory,
    the other models of the host, the library's caches); a fallible call maps
    it to a new one and either returns or raises.  [Img] is a PIL image (or
    whatever the UI hands over), [Feat] a feature tensor, [Score] a float. *)
Record Provider (W Img Feat Score : Type) := mkProvider {
  (* host runtime *)
  cmd_opts_lowvram : bool;
  cmd_opts_medvram : bool;
  cuda_is_available : bool;
  get_optimal_device : Device;
  total_memory : Device → Z;
  send_everything_to_cpu : W → W * Outcome unit;
  torch_gc : W → W * Outcome unit;
  (* interrogation library *)
  library_version : string;
  Interrogator_init : W → Config → W * Outcome Built;
  create_clip_model : W → Config → W * Outcome Model;
  convert : W → Img → string → W * Outcome Img;
  image_to_features : W → Interrogator → Img → W * Outcome Feat;
  rank : W → Interrogator → Category → Feat → nat → W * Outcome (list string);
  similarities : W → Interrogator → Feat → list string → W * Outcome (list Score);
  interrogate_with : Routine → W → Interrogator → Img → W * Outcome string
}.

Arguments cmd_opts_lowvram {W Img Feat Score} _.
Arguments cmd_opts_medvram {W Img Feat Score} _.
Arguments cuda_is_available {W Img Feat Score} _.
Arguments get_optimal_device {W Img Feat Score} _.
Arguments total_memory {W Img Feat Score} _ _.
Arguments send_everything_to_cpu {W Img Feat Score} _ _.
Arguments torch_gc {W Img Feat Score} _ _.
Arguments library_version {W Img Feat Score} _.
Arguments Interrogator_init {W Img Feat Score} _ _ _.
Arguments create_clip_model {W Img Feat Score} _ _ _.
Arguments convert {W Img Feat Score} _ _ _ _.
Arguments image_to_features {W Img Feat Score} _ _ _ _.
Arguments rank {W Img Feat Score} _ _ _ _ _ _.
Arguments similarities {W Img Feat Score} _ _ _ _ _.
Arguments interrogate_with {W Img Feat Score} _ _ _ _ _.

(** ** Program state and the monad of the script *)

(** The module global [ci], the outside world, the calls made so far
    (oldest first) and the next free object identity. *)
Record State (W : Type) := mkState {
  world : W;
  ci : option Interrogator;
  trace : list Event;
  next_oid : nat
}.

Arguments mkState {W} _ _ _ _.
Arguments world {W} _.
Arguments ci {W} _.
Arguments trace {W} _.
Arguments next_oid {W} _.

Definition M (W A : Type) : Type := State W → State W * Outcome A.

#[global] Instance M_ret {W} : MRet (M W) := λ A a s, (s, Returns a).

#[global] Instance M_bind {W} : MBind (M W) := λ A B f m s,
  match m s with
  | (s', Returns a) => f a s'
  | (s', Raises e) => (s', Raises e)
  end.

Definition raise {W A} (e : Exc) : M W A := λ s, (s, Raises e).

(** One [except C as e:] clause. *)
Definition Clause (W A : Type) : Type := ExcClass * (Exc → M W A).

(** The first clause whose class the exception is an instance of. *)
Fixpoint find_clause {W A} (e : Exc) (cs : list (Clause W A)) : option (Exc → M W A) :=
  match cs with
  | [] => None
  | (c, h) :: cs' => if isinstance e c then Some h else find_clause e cs'
  end.

(** [try: body / except ...: ...] without [finally]: an exception no clause
    matches goes on to the caller. *)
Definition try_except {W A} (body : M W A) (cs : list (Clause W A)) : M W A :=
  λ s, match body s with
       | (s', Returns a) => (s', Returns a)
       | (s', Raises e) =>
           match find_clause e cs with
           | Some h => h e s'
           | None => (s', Raises e)
           end
       end.

Definition emit {W} (ev : Event) : M W unit :=
  λ s, (mkState (world s) (ci s) (trace s ++ [ev]) (next_oid s), Returns tt).

Definition print {W} (line : string) : M W unit := emit (EvPrint line).

Definition get_ci {W} : M W (option Interrogator) := λ s, (s, Returns (ci s)).

Definition put_ci {W} (c : option Interrogator) : M W unit :=
  λ s, (mkState (world s) c (trace s) (next_oid s), Returns tt).

Definition fresh_oid {W} : M W nat :=
  λ s, (mkState (world s) (ci s) (trace s) (S (next_oid s)), Returns (next_oid s)).

(** A call into a collaborator: the world moves on, the outcome is its. *)
Definition extern {W A} (f : W → W * Outcome A) : M W A :=
  λ s, let '(w', r) := f (world s) in
       (mkState w' (ci s) (trace s) (next_oid s), r).

(** Reading an attribute of the object [ci] refers to; [ci] being [None]
    there is Python's [AttributeError]. *)
Definition the_ci {W} : M W Interrogator :=
  c ← get_ci;
  match c with
  | Some e => mret e
  | None => raise (mkExc AttributeError "'NoneType' object has no attribute")
  end.

(** Assigning an attribute of that object. *)
Definition update_ci {W} (f : Interrogator → Interrogator) : M W unit :=
  e ← the_ci; put_ci (Some (f e)).

Section Script.

Context {W Img Feat Score : Type}.
Variable P : Provider W Img Feat Score.

(** [devices.torch_gc()] *)
Definition devices_torch_gc : M W unit :=
  emit EvTorchGc;; extern (torch_gc P).

(** [lowvram.send_everything_to_cpu()] *)
Definition lowvram_send_everything_to_cpu : M W unit :=
  emit EvSendEverythingToCpu;; extern (send_everything_to_cpu P).

(** *** [load], lines 14-34 *)

Definition VRAM_THRESHOLD : Z := 12*1024*1024*1024.

(** Lines 19-25: the local [low_vram]. *)
Definition load_low_vram : M W bool :=
  let low_vram := cmd_opts_lowvram P || cmd_opts_medvram P in
  if negb low_vram && cuda_is_available P then
    let device := get_optimal_device P in
    let vram_total := total_memory P device in
    if vram_total <? VRAM_THRESHOLD then
      print "    detected < 12GB VRAM, using low VRAM mode";;
      mret true
    else mret low_vram
  else mret low_vram.

(** [Interrogator(config)]: a new object that keeps the config it is given. *)
Definition Interrogator_new (cfg : Config) : M W Interrogator :=
  i ← fresh_oid;
  emit (EvConstruct i cfg);;
  b ← extern (λ w, Interrogator_init P w cfg);
  mret (mkInterrogator i cfg (built_blip b) (built_clip b)
          (built_blip_offloaded b) (built_clip_offloaded b)).

(** [ci.load_clip_model()]: new vision-model weights for the engine's
    current config, stored in the same object. *)
Definition load_clip_model : M W unit :=
  e ← the_ci;
  emit (EvLoadClipModel (oid e) (clip_model_name (config e)));;
  m ← extern (λ w, create_clip_model P w (config e));
  update_ci (λ e, set_clip_model e m).

Definition load (clip_model_name' : string) : M W unit :=
  c ← get_ci;
  (match c with
   | None =>
       print ("Loading CLIP Interrogator " +:+ library_version P +:+ "...");;
       low_vram ← load_low_vram;
       let config := Config_new (get_optimal_device P) clip_model_name' in
       let config := set_cache_path config "models/clip-interrogator" in
       config ← (if low_vram : bool
                 then emit EvApplyLowVramDefaults;; mret (apply_low_vram_defaults config)
                 else mret config);
       e ← Interrogator_new config;
       put_ci (Some e)
   | Some _ => mret tt
   end);;
  e ← the_ci;
  if bool_decide (clip_model_name' ≠ clip_model_name (config e)) then
    update_ci (λ e, set_config e (set_clip_model_name (config e) clip_model_name'));;
    load_clip_model
  else mret tt.

(** *** [unload], lines 36-44 *)

Definition unload : M W unit :=
  c ← get_ci;
  match c with
  | Some _ =>
      print "Offloading CLIP Interrogator...";;
      update_ci (λ e, set_blip_model e (to (blip_model e) cpu));;
      update_ci (λ e, set_clip_model e (to (clip_model e) cpu));;
      update_ci (λ e, set_blip_offloaded e true);;
      update_ci (λ e, set_clip_offloaded e true);;
      devices_torch_gc
  | None => mret tt
  end.

(** *** [image_analysis], lines 49-67 *)

(** [image.convert(fmt)] *)
Definition image_convert (image : Img) (fmt : string) : M W Img :=
  emit (EvConvert fmt);; extern (λ w, convert P w image fmt).

(** [ci.image_to_features(image)] *)
Definition ci_image_to_features (image : Img) : M W Feat :=
  e ← the_ci;
  emit EvImageToFeatures;; extern (λ w, image_to_features P w e image).

(** [ci.<table>.rank(image_features, top_count)] *)
Definition ci_rank (table : Category) (image_features : Feat) (top_count : nat)
  : M W (list string) :=
  e ← the_ci;
  emit (EvRank table top_count);;
  extern (λ w, rank P w e table image_features top_count).

(** [ci.similarities(image_features, text_array)] *)
Definition ci_similarities (image_features : Feat) (text_array : list string)
  : M W (list Score) :=
  e ← the_ci;
  emit (EvSimilarities text_array);;
  extern (λ w, similarities P w e image_features text_array).

(** [{k: v for k, v in zip(ks, vs)}]: [zip] stops at the shorter list and a
    later pair replaces an earlier one with the same key. *)
Definition dict_of_zip (ks : list string) (vs : list Score) : gmap string Score :=
  foldl (λ d kv, <[kv.1 := kv.2]> d) ∅ (zip ks vs).

Definition image_analysis (image : Img) (clip_model_name' : string)
  : M W (gmap string Score * gmap string Score * gmap string Score *
         gmap string Score * gmap string Score) :=
  load clip_model_name';;
  image ← image_convert image "RGB";
  image_features ← ci_image_to_features image;
  top_mediums ← ci_rank mediums image_features 5;
  top_artists ← ci_rank artists image_features 5;
  top_movements ← ci_rank movements image_features 5;
  top_trendings ← ci_rank trendings image_features 5;
  top_flavors ← ci_rank flavors image_features 5;
  medium_sims ← ci_similarities image_features top_mediums;
  let medium_ranks := dict_of_zip top_mediums medium_sims in
  artist_sims ← ci_similarities image_features top_artists;
  let artist_ranks := dict_of_zip top_artists artist_sims in
  movement_sims ← ci_similarities image_features top_movements;
  let movement_ranks := dict_of_zip top_movements movement_sims in
  trending_sims ← ci_similarities image_features top_trendings;
  let trending_ranks := dict_of_zip top_trendings trending_sims in
  flavor_sims ← ci_similarities image_features top_flavors;
  let flavor_ranks := dict_of_zip top_flavors flavor_sims in
  mret (medium_ranks, artist_ranks, movement_ranks, trending_ranks, flavor_ranks).

(** *** [image_to_prompt], lines 69-98 *)

(** [ci.interrogate(image)] and its three siblings. *)
Definition ci_interrogate (r : Routine) (image : Img) : M W string :=
  e ← the_ci;
  emit (EvInterrogate r);; extern (λ w, interrogate_with P r w e image).

(** Lines 74-80, the first half of the [try] block: make room on the
    accelerator, have the engine ready, normalise the image. *)
Definition image_to_prompt_prepare (image : Img) (clip_model_name' : string)
  : M W Img :=
  (if cmd_opts_lowvram P || cmd_opts_medvram P then
     lowvram_send_everything_to_cpu;;
     devices_torch_gc
   else mret tt);;
  load clip_model_name';;
  image_convert image "RGB".

(** Lines 82-89, the second half: the [if]/[elif] chain on [mode].  The value
    is the local [prompt] as the chain leaves it: [None] when no branch
    assigned it. *)
Definition image_to_prompt_dispatch (image : Img) (mode : string)
  : M W (option string) :=
  if bool_decide (mode = "best") then
    prompt ← ci_interrogate Interrogate image; mret (Some prompt)
  else if bool_decide (mode = "classic") then
    prompt ← ci_interrogate InterrogateClassic image; mret (Some prompt)
  else if bool_decide (mode = "fast") then
    prompt ← ci_interrogate InterrogateFast image; mret (Some prompt)
  else if bool_decide (mode = "negative") then
    prompt ← ci_interrogate InterrogateNegative image; mret (Some prompt)
  else mret None.

(** Lines 74-89, the whole [try] block. *)
Definition image_to_prompt_try (image : Img) (mode clip_model_name' : string)
  : M W (option string) :=
  image ← image_to_prompt_prepare image clip_model_name';
  image_to_prompt_dispatch image mode.

(** Lines 90-92 *)
Definition on_out_of_memory (e : Exc) : M W (option string) :=
  let prompt := "Ran out of VRAM" in
  print (exc_str e);;
  mret (Some prompt).

(** Lines 93-95 *)
Definition on_runtime_error (e : Exc) : M W (option string) :=
  let prompt := "Exception " +:+ type_repr (exc_type e) in
  print (exc_str e);;
  mret (Some prompt).

(** [return prompt]: reading a local that was never assigned raises. *)
Definition return_local (name : string) (v : option string) : M W string :=
  match v with
  | Some p => mret p
  | None =>
      raise (mkExc UnboundLocalError
               ("local variable '" +:+ name +:+ "' referenced before assignment"))
  end.

Definition image_to_prompt (image : Img) (mode clip_model_name' : string)
  : M W string :=
  emit EvJobBegin;;
  emit (EvJobSet "interrogate");;
  prompt ← try_except (image_to_prompt_try image mode clip_model_name')
             [(OutOfMemoryError, on_out_of_memory);
              (RuntimeError, on_runtime_error)];
  emit EvJobEnd;;
  return_local "prompt" prompt.

End Script.

(** ** Names for what [load] does *)

Section LoadShapes.

Context {W Img Feat Score : Type}.
Variable P : Provider W Img Feat Score.

(** The low-VRAM decision in the spec's words: the launch flags ask for it,
    or they do not and an accelerator is there with less than 12 GiB. *)
Definition spec_low_vram_mode : bool :=
  (cmd_opts_lowvram P || cmd_opts_medvram P)
  || (negb (cmd_opts_lowvram P || cmd_opts_medvram P)
      && cuda_is_available P
      && (total_memory P (get_optimal_device P) <? 12884901888)).

(** The script found the small accelerator by itself (and says so). *)
Definition detected_small_vram : bool :=
  negb (cmd_opts_lowvram P || cmd_opts_medvram P)
  && cuda_is_available P
  && (total_memory P (get_optimal_device P) <? 12884901888).

(** The config [load] hands to the constructor. *)
Definition fresh_config (m : string) : Config :=
  let c := set_cache_path (Config_new (get_optimal_device P) m)
             "models/clip-interrogator" in
  if spec_low_vram_mode then apply_low_vram_defaults c else c.

(** What [load] has said and done by the time the constructor runs. *)
Definition fresh_events (i : nat) (m : string) : list Event :=
  [EvPrint ("Loading CLIP Interrogator " +:+ library_version P +:+ "...")]
  ++ (if detected_small_vram
      then [EvPrint "    detected < 12GB VRAM, using low VRAM mode"] else [])
  ++ (if spec_low_vram_mode then [EvApplyLowVramDefaults] else [])
  ++ [EvConstruct i (fresh_config m)].

End LoadShapes.

(** A resident engine as [load] leaves it when it switches to [m]: the name
    is written into the config, everything else is as it was. *)
Definition renamed (e : Interrogator) (m : string) : Interrogator :=
  set_config e (set_clip_model_name (config e) m).

(** A resident engine as [unload] leaves it. *)
Definition offloaded (e : Interrogator) : Interrogator :=
  set_clip_offloaded
    (set_blip_offloaded
       (set_clip_model (set_blip_model e (to (blip_model e) cpu))
          (to (clip_model e) cpu))
       true)
    true.

(** ** Names for what [image_to_prompt] does *)

(** The state [s] once the calls [evs] have been made on top of it. *)
Definition logged {W} (s : State W) (evs : list Event) : State W :=
  mkState (world s) (ci s) (trace s ++ evs) (next_oid s).

(** Lines 70-71: the state in which the [try] block starts. *)
Definition job_begun {W} (s : State W) : State W :=
  logged s [EvJobBegin; EvJobSet "interrogate"].

(** What follows the [try] block: nothing when the exception matches neither
    [except] clause, else the handler's [print] if one ran and the job-end. *)
Definition closing_events {A} (r : Outcome A) : list Event :=
  match r with
  | Returns _ => [EvJobEnd]
  | Raises e =>
      if isinstance e OutOfMemoryError || isinstance e RuntimeError
      then [EvPrint (exc_str e); EvJobEnd]
      else []
  end.

(** Python's error for [return prompt] with [prompt] never assigned. *)
Definition prompt_unbound : Exc :=
  mkExc UnboundLocalError "local variable 'prompt' referenced before assignment".

(** The modes the [if]/[elif] chain knows. *)
Definition known_modes : list string := ["best"; "fast"; "classic"; "negative"].

(** A computation only ever adds calls to the trace. *)
Definition extends {W A} (m : M W A) : Prop :=
  ∀ s, ∃ tr, trace (m s).1 = trace s ++ tr.

(** ** Names for what [image_analysis] returns *)

Definition all_categories : list Category :=
  [mediums; artists; movements; trendings; flavors].

(** The mapping [image_analysis] returns for one label table. *)
Definition ranks_of {Score} (t : Category)
    (r : gmap string Score * gmap string Score * gmap string Score *
         gmap string Score * gmap string Score) : gmap string Score :=
  let '(medium_ranks, artist_ranks, movement_ranks, trending_ranks, flavor_ranks) := r in
  match t with
  | mediums => medium_ranks
  | artists => artist_ranks
  | movements => movement_ranks
  | trendings => trending_ranks
  | flavors => flavor_ranks
  end.

(** ** A stub provider, as a test double would be written *)

Module Stub.

(** The world counts the calls made into the collaborators; an image is
    [None] when the UI sends none. *)
Definition convert_image (w : nat) (image : option string) (fmt : string)
  : nat * Outcome (option string) :=
  match image with
  | Some px => (S w, Returns (Some (px +:+ "/" +:+ fmt)))
  | None => (S w, Raises (mkExc AttributeError "'NoneType' object has no attribute 'convert'"))
  end.

Definition vocabulary (t : Category) : list string :=
  match t with
  | mediums => ["oil"; "ink"; "photo"; "pastel"; "chalk"; "fresco"; "pencil"]
  | artists => ["monet"; "dali"; "klee"; "miro"; "goya"; "munch"]
  | movements => ["cubism"; "dada"; "pop"; "fauvism"; "rococo"; "baroque"]
  | trendings => ["artstation"; "flickr"; "behance"; "tumblr"; "cg"; "deviant"]
  | flavors => ["moody"; "bright"; "noir"; "lush"; "stark"; "misty"; "warm"]
  end.

Definition provider (lowvram medvram : bool) (vram : Z)
    (run : Routine → Outcome string) : Provider nat (option string) nat Z :=
  {| cmd_opts_lowvram := lowvram;
     cmd_opts_medvram := medvram;
     cuda_is_available := true;
     get_optimal_device := cuda 0;
     total_memory := λ _, vram;
     send_everything_to_cpu := λ w, (S w, Returns tt);
     torch_gc := λ w, (S w, Returns tt);
     library_version := "0.5.4";
     Interrogator_init := λ w cfg,
       (S w, Returns (mkBuilt (mkModel "blip-large" (device cfg))
                        (mkModel (clip_model_name cfg) (device cfg)) false false));
     create_clip_model := λ w cfg,
       (S w, Returns (mkModel (clip_model_name cfg) (device cfg)));
     convert := convert_image;
     image_to_features := λ w _ _, (S w, Returns 7%nat);
     rank := λ w _ t _ k, (S w, Returns (take k (vocabulary t)));
     similarities := λ w _ _ ls, (S w, Returns (map (λ l, Z.of_nat (String.length l)) ls));
     interrogate_with := λ r w _ _, (S w, run r) |}.

Definition initial : State nat := mkState 0%nat None [] 0%nat.

(** A 24 GiB card, no launch flag; every routine answers the same prompt. *)
Definition cat : Provider nat (option string) nat Z :=
  provider false false (24*1024*1024*1024) (λ _, Returns "a photo of a cat").

(** An 8 GiB card, no launch flag. *)
Definition small : Provider nat (option string) nat Z :=
  provider false false (8*1024*1024*1024) (λ _, Returns "a photo of a cat").

(** Started with [--lowvram]; the fast routine runs out of memory. *)
Definition oom : Provider nat (option string) nat Z :=
  provider true false (8*1024*1024*1024)
    (λ r, match r with
          | InterrogateFast =>
              Raises (mkExc OutOfMemoryError "CUDA out of memory.")
          | _ => Returns "a photo of a cat"
          end).

(** Started with [--medvram]; every routine fails inside the library. *)
Definition broken : Provider nat (option string) nat Z :=
  provider false true (8*1024*1024*1024)
    (λ _, Raises (mkExc RuntimeError "CUDA error: device-side assert triggered")).

Definition model_L : string := "ViT-L-14/openai".
Definition model_H : string := "ViT-H-14/laion2b_s32b_b79k".

(** The session after a first [load]. *)
Definition loaded : State nat := (load cat model_L initial).1.

End Stub.

(** ** [get_models], lines 46-47 *)

(** [sep.join(xs)] *)
Fixpoint str_join (sep : string) (xs : list string) : string :=
  match xs with
  | [] => ""
  | x :: rest =>
      match rest with
      | [] => x
      | _ :: _ => x +:+ sep +:+ str_join sep rest
      end
  end.

(** [get_models()], given what [open_clip.list_pretrained()] returns: one
    tuple of strings per catalog entry. *)
Definition get_models (list_pretrained : list (list string)) : list string :=
  str_join "/" <$> list_pretrained.

(** The character ['/']. *)
Definition slash : Ascii.ascii :=
  Ascii.Ascii true true true true false true false false.

(** [c in s] for a character [c]. *)
Fixpoint contains_char (c : Ascii.ascii) (s : string) : bool :=
  match s with
  | EmptyString => false
  | String c' s' => if decide (c' = c) then true else contains_char c s'
  end.

(** ** The handlers as the tabs wire them, lines 111-112 and 126 *)

(** One click: [button.click(image_to_prompt, ...)],
    [unload_button.click(unload)] or [button.click(image_analysis, ...)]. *)
Inductive Call (Img : Type) :=
| ClickGenerate (image : Img) (mode model : string)
| ClickUnload
| ClickAnalyze (image : Img) (model : string).

Arguments ClickGenerate {Img} image mode model.
Arguments ClickUnload {Img}.
Arguments ClickAnalyze {Img} image model.

(** The mode names with the routine each selects, in the order of the chain. *)
Definition mode_routines : list (string * Routine) :=
  [("best", Interrogate); ("classic", InterrogateClassic);
   ("fast", InterrogateFast); ("negative", InterrogateNegative)].

(** Events of the host's job tracker. *)
Definition is_job_event (ev : Event) : bool :=
  match ev with
  | EvJobBegin | EvJobSet _ | EvJobEnd => true
  | _ => false
  end.

(** Requests to the host to make room on the accelerator. *)
Definition is_host_offload (ev : Event) : bool :=
  match ev with
  | EvSendEverythingToCpu | EvTorchGc => true
  | _ => false
  end.

(** Neither the job tracker nor the host's memory. *)
Definition analysis_allowed (ev : Event) : bool :=
  negb (is_job_event ev) && negb (is_host_offload ev).

(** Since [s0], only calls that [allowed] accepts have been made. *)
Definition since {W} (allowed : Event → bool) (s0 s : State W) : Prop :=
  ∃ tr, trace s = trace s0 ++ tr ∧ Forall (λ ev, allowed ev = true) tr.

(** Since [s0], the engine resident there has stayed the resident one, and
    no object has been built. *)
Definition steady {W} (s0 s : State W) : Prop :=
  since (λ ev, negb (is_construct ev)) s0 s
  ∧ next_oid s = next_oid s0
  ∧ ∃ e0 e, ci s0 = Some e0 ∧ ci s = Some e ∧ oid e = oid e0.

(** [m] keeps the invariant [I], however it ends. *)
Definition keeps {W A} (I : State W → Prop) (m : M W A) : Prop :=
  ∀ s, I s → I (m s).1.

Section Handlers.

Context {W Img Feat Score : Type}.
Variable P : Provider W Img Feat Score.

(** The UI framework runs the handler; its value goes to the widgets and an
    exception to the error display, the session state stays as left. *)
Definition click (c : Call Img) (s : State W) : State W :=
  match c with
  | ClickGenerate image mode model => (image_to_prompt P image mode model s).1
  | ClickUnload => (unload P s).1
  | ClickAnalyze image model => (image_analysis P image model s).1
  end.

(** A series of clicks, one after the other. *)
Definition clicks (cs : list (Call Img)) (s : State W) : State W :=
  foldl (λ s c, click c s) s cs.

(** The exception [e] came out of one of the collaborators' routines. *)
Inductive provider_raises (e : Exc) : Prop :=
| raised_by_send_everything_to_cpu w w' :
    send_everything_to_cpu P w = (w', Raises e) → provider_raises e
| raised_by_torch_gc w w' :
    torch_gc P w = (w', Raises e) → provider_raises e
| raised_by_init w cfg w' :
    Interrogator_init P w cfg = (w', Raises e) → provider_raises e
| raised_by_create_clip_model w cfg w' :
    create_clip_model P w cfg = (w', Raises e) → provider_raises e
| raised_by_convert w image fmt w' :
    convert P w image fmt = (w', Raises e) → provider_raises e
| raised_by_image_to_features w eng image w' :
    image_to_features P w eng image = (w', Raises e) → provider_raises e
| raised_by_rank w eng t f k w' :
    rank P w eng t f k = (w', Raises e) → provider_raises e
| raised_by_similarities w eng f ls w' :
    similarities P w eng f ls = (w', Raises e) → provider_raises e
| raised_by_interrogate r w eng image w' :
    interrogate_with P r w eng image = (w', Raises e) → provider_raises e.

End Handlers.

(** Started with [ci] satisfying [pre], [m] either returns with [ci]
    satisfying [post] or raises an exception satisfying [exn]. *)
Definition raises_only {W A} (pre : option Interrogator → Prop) (m : M W A)
    (post : option Interrogator → Prop) (exn : Exc → Prop) : Prop :=
  ∀ s, pre (ci s) →
       match m s with
       | (s', Returns _) => post (ci s')
       | (_, Raises e) => exn e
       end.

(** ** Stub providers whose library calls fail *)

Module Faulty.


(** As [Stub.cat], but the engine cannot be built. *)
Definition no_engine : Provider nat (option string) nat Z :=
  {| cmd_opts_lowvram := cmd_opts_lowvram Stub.cat;
     cmd_opts_medvram := cmd_opts_medvram Stub.cat;
     cuda_is_available := cuda_is_available Stub.cat;
     get_optimal_device := get_optimal_device Stub.cat;
     total_memory := total_memory Stub.cat;
     send_everything_to_cpu := send_everything_to_cpu Stub.cat;
     torch_gc := torch_gc Stub.cat;
     library_version := library_version Stub.cat;
     Interrogator_init := λ w _,
       (S w, Raises (mkExc OutOfMemoryError "CUDA out of memory."));
     create_clip_model := create_clip_model Stub.cat;
     convert := convert Stub.cat;
     image_to_features := image_to_features Stub.cat;
     rank := rank Stub.cat;
     similarities := similarities Stub.cat;
     interrogate_with := interrogate_with Stub.cat |}.

(** The engine [Stub.cat] builds first. *)
Definition engine : Interrogator :=
  mkInterrogator 0
    (mkConfig (cuda 0) Stub.model_L "models/clip-interrogator" false)
    (mkModel "blip-large" (cuda 0)) (mkModel Stub.model_L (cuda 0))
    false false.

(** A small catalog, as [open_clip.list_pretrained()] gives it. *)
Definition catalog : list (list string) :=
  [["ViT-L-14"; "openai"]; ["ViT-H-14"; "laion2b_s32b_b79k"];
   ["ViT-L-14"; "laion2b_s32b_b82k"]].

End Faulty.

(** * Properties *)

(** Unfolds the monad and the script's primitives down to state passing. *)
Ltac run :=
  unfold image_to_prompt, image_to_prompt_try, image_to_prompt_prepare,
    image_to_prompt_dispatch, image_analysis, load, unload, load_low_vram,
    Interrogator_new, load_clip_model, ci_interrogate, ci_rank,
    ci_similarities, ci_image_to_features, image_convert, devices_torch_gc,
    lowvram_send_everything_to_cpu, on_out_of_memory, on_runtime_error,
    return_local, try_except, update_ci, the_ci, print, emit, get_ci, put_ci,
    fresh_oid, extern, raise, mbind, M_bind, mret, M_ret in *;
  simpl in *.

Section Session.

Context {W Img Feat Score : Type}.
Variable P : Provider W Img Feat Score.

(** ** [load] on a resident engine *)

Lemma load_same_name (s : State W) (e : Interrogator) (m : string) :
  ci s = Some e → m = clip_model_name (config e) →
  load P m s = (s, Returns tt).
Proof.
  intros Hci ->. destruct s as [w c t n]; simpl in Hci; subst c. run.
  rewrite bool_decide_eq_false_2 by (intros H; by apply H).
  reflexivity.
Qed.

Lemma load_other_name (s : State W) (e : Interrogator) (m : string) :
  ci s = Some e → m ≠ clip_model_name (config e) →
  load P m s =
    match create_clip_model P (world s) (config (renamed e m)) with
    | (w', Returns cm) =>
        (mkState w' (Some (set_clip_model (renamed e m) cm))
           (trace s ++ [EvLoadClipModel (oid e) m]) (next_oid s), Returns tt)
    | (w', Raises x) =>
        (mkState w' (Some (renamed e m))
           (trace s ++ [EvLoadClipModel (oid e) m]) (next_oid s), Raises x)
    end.
Proof.
  intros Hci Hne. destruct s as [w c t n]; simpl in Hci; subst c. run.
  rewrite bool_decide_eq_true_2 by done. simpl.
  destruct (create_clip_model P w _) as [w' [cm|x]]; reflexivity.
Qed.

(** ** [load] with no engine resident *)

Lemma load_low_vram_run (s : State W) :
  load_low_vram P s =
    (mkState (world s) (ci s)
       (trace s ++ (if detected_small_vram P
                    then [EvPrint "    detected < 12GB VRAM, using low VRAM mode"]
                    else []))
       (next_oid s),
     Returns (spec_low_vram_mode P)).
Proof.
  destruct s as [w c t n].
  unfold spec_low_vram_mode, detected_small_vram, load_low_vram, VRAM_THRESHOLD.
  change (12 * 1024 * 1024 * 1024) with 12884901888.
  destruct (cmd_opts_lowvram P), (cmd_opts_medvram P), (cuda_is_available P);
    simpl; rewrite ?app_nil_r; try reflexivity;
    destruct (_ <? _); simpl; rewrite ?app_nil_r; reflexivity.
Qed.

Lemma load_absent (s : State W) (m : string) :
  ci s = None →
  load P m s =
    match Interrogator_init P (world s) (fresh_config P m) with
    | (w', Returns b) =>
        (mkState w'
           (Some (mkInterrogator (next_oid s) (fresh_config P m) (built_blip b)
                    (built_clip b) (built_blip_offloaded b)
                    (built_clip_offloaded b)))
           (trace s ++ fresh_events P (next_oid s) m) (S (next_oid s)),
         Returns tt)
    | (w', Raises x) =>
        (mkState w' None (trace s ++ fresh_events P (next_oid s) m)
           (S (next_oid s)), Raises x)
    end.
Proof.
  intros Hci. destruct s as [w c t n]; simpl in Hci; subst c.
  unfold load. unfold mbind at 1 2, M_bind at 1 2. simpl.
  unfold mbind at 1 2, M_bind at 1 2. simpl.
  unfold mbind at 1, M_bind at 1. rewrite load_low_vram_run. simpl.
  unfold fresh_events, fresh_config.
  destruct (spec_low_vram_mode P), (detected_small_vram P); run;
    match goal with
    | |- context [Interrogator_init P ?w ?c] =>
        destruct (Interrogator_init P w c) as [w' [b|x]]; simpl
    end;
    rewrite ?bool_decide_eq_false_2 by (intros H; by apply H); simpl;
    rewrite <- ?app_assoc; simpl; reflexivity.
Qed.

(** After [load m] has returned, an engine bound to [m] is resident. *)
Lemma load_returns_bound (s s1 : State W) (m : string) :
  load P m s = (s1, Returns tt) →
  ∃ e, ci s1 = Some e ∧ clip_model_name (config e) = m.
Proof.
  destruct (ci s) as [e|] eqn:Hci.
  - destruct (decide (m = clip_model_name (config e))) as [Heq|Hne].
    + rewrite (load_same_name s e m Hci Heq). intros [= <-]. eauto.
    + rewrite (load_other_name s e m Hci Hne).
      destruct (create_clip_model P (world s) _) as [w' [cm|x]]; [|done].
      intros [= <-]. eexists. split; [reflexivity|]. reflexivity.
  - rewrite (load_absent s m Hci).
    destruct (Interrogator_init P (world s) _) as [w' [b|x]]; [|done].
    intros [= <-]. eexists. split; [reflexivity|].
    unfold fresh_config. simpl. by destruct (spec_low_vram_mode P).
Qed.

(** ** [unload] *)

Lemma unload_absent (s : State W) :
  ci s = None → unload P s = (s, Returns tt).
Proof.
  intros Hci. destruct s as [w c t n]; simpl in Hci; subst c. reflexivity.
Qed.

Lemma unload_resident (s : State W) (e : Interrogator) :
  ci s = Some e →
  unload P s =
    let '(w', r) := torch_gc P (world s) in
    (mkState w' (Some (offloaded e))
       (trace s ++ [EvPrint "Offloading CLIP Interrogator..."; EvTorchGc])
       (next_oid s), r).
Proof.
  intros Hci. destruct s as [w c t n]; simpl in Hci; subst c. run.
  rewrite <- app_assoc. simpl.
  destruct (torch_gc P w) as [w' r]. reflexivity.
Qed.

Lemma offloaded_idem (e : Interrogator) : offloaded (offloaded e) = offloaded e.
Proof. reflexivity. Qed.

(** C5: with no engine resident, the local [low_vram] of [load] is true
    exactly when a launch flag asks for low or medium VRAM, or none does and
    an accelerator is available whose total memory is below 12 GiB; and when
    it is true [apply_low_vram_defaults] has run on the config before the
    constructor is called with it. *)
Theorem load_low_vram_decision (s : State W) (m : string) :
  ci s = None →
  (load_low_vram P s).2 = Returns (spec_low_vram_mode P)
  ∧ (spec_low_vram_mode P = true ↔
       (cmd_opts_lowvram P = true ∨ cmd_opts_medvram P = true)
       ∨ (cmd_opts_lowvram P = false ∧ cmd_opts_medvram P = false
          ∧ cuda_is_available P = true
          ∧ total_memory P (get_optimal_device P) < 12 * 1024 * 1024 * 1024))
  ∧ ∃ cfg : Config,
      low_vram_defaults cfg = spec_low_vram_mode P
      ∧ clip_model_name cfg = m
      ∧ ∃ said : list Event,
          Forall (λ ev, ∃ line, ev = EvPrint line) said
          ∧ trace (load P m s).1 =
              trace s ++ said
              ++ (if spec_low_vram_mode P then [EvApplyLowVramDefaults] else [])
              ++ [EvConstruct (next_oid s) cfg].
Proof.
  intros Hci. split; [by rewrite load_low_vram_run|]. split.
  - unfold spec_low_vram_mode.
    destruct (cmd_opts_lowvram P), (cmd_opts_medvram P), (cuda_is_available P);
      simpl; try (split; [intros _; auto | done]);
      try (split; [done | intros [[?|?]|(?&?&?&?)]; done]).
    rewrite Z.ltb_lt. change (12 * 1024 * 1024 * 1024) with 12884901888.
    split; [intros H; right; auto | intros [[?|?]|(?&?&?&?)]; done].
  - exists (fresh_config P m). split; [|split].
    + unfold fresh_config. by destruct (spec_low_vram_mode P).
    + unfold fresh_config. by destruct (spec_low_vram_mode P).
    + exists ([EvPrint ("Loading CLIP Interrogator " +:+ library_version P +:+ "...")]
              ++ (if detected_small_vram P
                  then [EvPrint "    detected < 12GB VRAM, using low VRAM mode"]
                  else [])).
      split.
      * destruct (detected_small_vram P); repeat constructor; eauto.
      * rewrite (load_absent s m Hci).
        destruct (Interrogator_init P (world s) _) as [w' [b|x]]; simpl;
          unfold fresh_events; simpl; by rewrite <- ?app_assoc.
Qed.

(** C6: after [load m1] has returned, [load m2] with another name builds
    nothing: it writes [m2] into the config of the engine that is resident,
    asks for vision-model weights once, and leaves that same object -- its
    caption model untouched -- as the one resident engine, bound to [m2]. *)
Theorem load_switch_keeps_one_engine (s s1 : State W) (m1 m2 : string) :
  m1 ≠ m2 →
  load P m1 s = (s1, Returns tt) →
  ∃ e1 : Interrogator,
    ci s1 = Some e1 ∧ clip_model_name (config e1) = m1
    ∧ (∃ tr1, trace s1 = trace s ++ tr1
              ∧ length (filter (λ ev, is_construct ev = true) tr1)
                = match ci s with Some _ => 0%nat | None => 1%nat end)
    ∧ ∀ (s2 : State W) (r : Outcome unit),
        load P m2 s1 = (s2, r) →
        trace s2 = trace s1 ++ [EvLoadClipModel (oid e1) m2]
        ∧ next_oid s2 = next_oid s1
        ∧ ∃ e2 : Interrogator,
            ci s2 = Some e2
            ∧ oid e2 = oid e1
            ∧ config e2 = set_clip_model_name (config e1) m2
            ∧ blip_model e2 = blip_model e1
            ∧ blip_offloaded e2 = blip_offloaded e1
            ∧ clip_offloaded e2 = clip_offloaded e1
            ∧ match r with
              | Returns _ =>
                  create_clip_model P (world s1) (config e2)
                  = (world s2, Returns (clip_model e2))
              | Raises x =>
                  create_clip_model P (world s1) (config e2)
                  = (world s2, Raises x)
                  ∧ clip_model e2 = clip_model e1
              end.
Proof.
  intros Hne Hload.
  destruct (load_returns_bound s s1 m1 Hload) as (e1 & Hci1 & Hname).
  exists e1. split; [done|]. split; [done|]. split.
  - destruct (ci s) as [e|] eqn:Hci.
    + destruct (decide (m1 = clip_model_name (config e))) as [Heq|Hdiff].
      * rewrite (load_same_name s e m1 Hci Heq) in Hload.
        injection Hload as <-. exists []. by rewrite app_nil_r.
      * rewrite (load_other_name s e m1 Hci Hdiff) in Hload.
        destruct (create_clip_model P (world s) _) as [w' [cm|x]]; [|done].
        injection Hload as <-. by eexists.
    + rewrite (load_absent s m1 Hci) in Hload.
      destruct (Interrogator_init P (world s) _) as [w' [b|x]]; [|done].
      injection Hload as <-. eexists. split; [reflexivity|].
      unfold fresh_events.
      by destruct (detected_small_vram P), (spec_low_vram_mode P).
  - intros s2 r Hload2.
    assert (Hdiff : m2 ≠ clip_model_name (config e1)) by congruence.
    rewrite (load_other_name s1 e1 m2 Hci1 Hdiff) in Hload2.
    destruct (create_clip_model P (world s1) _) as [w' [cm|x]] eqn:Hcm;
      injection Hload2 as <- <-; (split; [done|]); (split; [done|]);
      eexists; (split; [reflexivity|]); simpl; by repeat split.
Qed.

(** C7: [unload] with no engine resident returns and changes nothing; with
    one resident it leaves both models on [devices.cpu] and both offloaded
    flags set whatever [torch_gc] does; and a second [unload] right after the
    first leaves [ci] as the first left it. *)
Theorem unload_idempotent (s : State W) :
  (ci s = None → unload P s = (s, Returns tt))
  ∧ (∀ e, ci s = Some e →
       ∃ e1, ci (unload P s).1 = Some e1
             ∧ oid e1 = oid e ∧ config e1 = config e
             ∧ placed_on (blip_model e1) = cpu
             ∧ placed_on (clip_model e1) = cpu
             ∧ weights (blip_model e1) = weights (blip_model e)
             ∧ weights (clip_model e1) = weights (clip_model e)
             ∧ blip_offloaded e1 = true ∧ clip_offloaded e1 = true
             ∧ (unload P s).2 = (torch_gc P (world s)).2)
  ∧ ci (unload P (unload P s).1).1 = ci (unload P s).1.
Proof.
  split; [apply unload_absent|]. split.
  - intros e Hci. rewrite (unload_resident s e Hci).
    destruct (torch_gc P (world s)) as [w' r]. simpl.
    exists (offloaded e). by repeat split.
  - destruct (ci s) as [e|] eqn:Hci.
    + rewrite (unload_resident s e Hci).
      destruct (torch_gc P (world s)) as [w' r]. simpl.
      rewrite (unload_resident (mkState w' (Some (offloaded e)) _ _) (offloaded e) eq_refl). simpl.
      by destruct (torch_gc P w') as [w'' r'].
    + rewrite (unload_absent s Hci). simpl. by rewrite (unload_absent s Hci).
Qed.

(** C10: once [unload] has offloaded the resident engine, [load] with the
    name the engine is bound to does nothing at all -- same object, both
    models still on the host, both flags still set, no call made -- whereas
    [load] with any other name asks for new vision-model weights. *)
Theorem load_after_unload_same_name (s : State W) (e : Interrogator) (m : string) :
  ci s = Some e →
  let s1 := (unload P s).1 in
  ∃ e1 : Interrogator,
    ci s1 = Some e1
    ∧ oid e1 = oid e
    ∧ clip_model_name (config e1) = clip_model_name (config e)
    ∧ placed_on (blip_model e1) = cpu ∧ placed_on (clip_model e1) = cpu
    ∧ blip_offloaded e1 = true ∧ clip_offloaded e1 = true
    ∧ (m = clip_model_name (config e1) → load P m s1 = (s1, Returns tt))
    ∧ (m ≠ clip_model_name (config e1) →
         trace (load P m s1).1 = trace s1 ++ [EvLoadClipModel (oid e1) m]).
Proof.
  intros Hci s1. subst s1. rewrite (unload_resident s e Hci).
  destruct (torch_gc P (world s)) as [w' r]. simpl.
  exists (offloaded e). repeat (split; [done|]). split.
  - intros Hm. by apply (load_same_name (mkState w' (Some (offloaded e)) _ _) (offloaded e)).
  - intros Hm. rewrite (load_other_name (mkState w' (Some (offloaded e)) _ _) (offloaded e) m eq_refl Hm). simpl.
    by destruct (create_clip_model P w' _) as [w'' [cm|x]].
Qed.

End Session.

Section Prompt.

Context {W Img Feat Score : Type}.
Variable P : Provider W Img Feat Score.

(** ** [image_to_prompt] around its [try] block *)

Lemma image_to_prompt_run (image : Img) (mode m : string) (s : State W) :
  image_to_prompt P image mode m s =
    match image_to_prompt_try P image mode m (job_begun s) with
    | (s1, Returns (Some p)) => (logged s1 [EvJobEnd], Returns p)
    | (s1, Returns None) => (logged s1 [EvJobEnd], Raises prompt_unbound)
    | (s1, Raises e) =>
        if isinstance e OutOfMemoryError then
          (logged s1 [EvPrint (exc_str e); EvJobEnd], Returns "Ran out of VRAM")
        else if isinstance e RuntimeError then
          (logged s1 [EvPrint (exc_str e); EvJobEnd],
           Returns ("Exception " +:+ type_repr (exc_type e)))
        else (s1, Raises e)
    end.
Proof.
  destruct s as [w c t n].
  unfold image_to_prompt, try_except, job_begun, logged.
  unfold mbind at 1 2 3 4, M_bind at 1 2 3 4, emit at 1 2. simpl.
  rewrite <- app_assoc. simpl.
  destruct (image_to_prompt_try P image mode m _) as [[w1 c1 t1 n1] [[p|]|e]];
    simpl; try reflexivity.
  destruct (isinstance e OutOfMemoryError); simpl.
  - unfold on_out_of_memory, print, emit, mbind, M_bind, mret, M_ret. simpl.
    by rewrite <- app_assoc.
  - destruct (isinstance e RuntimeError); simpl; [|reflexivity].
    unfold on_runtime_error, print, emit, mbind, M_bind, mret, M_ret. simpl.
    by rewrite <- app_assoc.
Qed.

Lemma image_to_prompt_try_run (image : Img) (mode m : string) (s : State W) :
  image_to_prompt_try P image mode m s =
    match image_to_prompt_prepare P image m s with
    | (s1, Returns image') => image_to_prompt_dispatch P image' mode s1
    | (s1, Raises e) => (s1, Raises e)
    end.
Proof. reflexivity. Qed.

(** C3: when the routine the mode selects raises
    [torch.cuda.OutOfMemoryError], [image_to_prompt] prints the error, ends
    the job and returns the string "Ran out of VRAM"; the exception does not
    reach the caller. *)
Theorem out_of_memory_is_caught (image image' : Img) (mode m : string)
    (s s1 s2 : State W) (e : Exc) :
  image_to_prompt_prepare P image m (job_begun s) = (s1, Returns image') →
  image_to_prompt_dispatch P image' mode s1 = (s2, Raises e) →
  isinstance e OutOfMemoryError = true →
  image_to_prompt P image mode m s =
    (logged s2 [EvPrint (exc_str e); EvJobEnd], Returns "Ran out of VRAM").
Proof.
  intros Hprep Hdisp Hoom.
  rewrite image_to_prompt_run, image_to_prompt_try_run, Hprep, Hdisp.
  by rewrite Hoom.
Qed.

(** C4: when the [try] block raises a [RuntimeError] that is not an
    out-of-memory error, [image_to_prompt] prints the error, ends the job and
    returns "Exception " followed by the class of the exception as Python
    renders it; the exception does not reach the caller. *)
Theorem runtime_error_is_caught (image : Img) (mode m : string)
    (s s1 : State W) (e : Exc) :
  image_to_prompt_try P image mode m (job_begun s) = (s1, Raises e) →
  isinstance e RuntimeError = true →
  isinstance e OutOfMemoryError = false →
  image_to_prompt P image mode m s =
    (logged s1 [EvPrint (exc_str e); EvJobEnd],
     Returns ("Exception <class '" +:+ class_name (exc_type e) +:+ "'>")).
Proof.
  intros Htry Hrt Hoom.
  rewrite image_to_prompt_run, Htry, Hoom, Hrt. reflexivity.
Qed.

(** ** The trace only grows *)

Lemma extends_ret {A} (a : A) : extends (mret a : M W A).
Proof. intros s. exists []. by rewrite app_nil_r. Qed.

Lemma extends_raise {A} (e : Exc) : extends (raise e : M W A).
Proof. intros s. exists []. by rewrite app_nil_r. Qed.

Lemma extends_emit (ev : Event) : extends (emit ev : M W unit).
Proof. intros s. by exists [ev]. Qed.

Lemma extends_extern {A} (f : W → W * Outcome A) : extends (extern f).
Proof.
  intros s. exists []. unfold extern. destruct (f (world s)). simpl.
  by rewrite app_nil_r.
Qed.

Lemma extends_get_ci : extends (get_ci : M W _).
Proof. intros s. exists []. by rewrite app_nil_r. Qed.

Lemma extends_put_ci c : extends (put_ci c : M W _).
Proof. intros s. exists []. simpl. by rewrite app_nil_r. Qed.

Lemma extends_fresh_oid : extends (fresh_oid : M W _).
Proof. intros s. exists []. simpl. by rewrite app_nil_r. Qed.

Lemma extends_bind {A B} (m : M W A) (f : A → M W B) :
  extends m → (∀ a, extends (f a)) → extends (m ≫= f).
Proof.
  intros Hm Hf s. destruct (Hm s) as [tr1 H1].
  unfold mbind, M_bind. destruct (m s) as [s1 [a|e]]; simpl in *.
  - destruct (Hf a s1) as [tr2 H2]. exists (tr1 ++ tr2).
    by rewrite H2, H1, app_assoc.
  - by exists tr1.
Qed.

Lemma extends_if {A} (b : bool) (m1 m2 : M W A) :
  extends m1 → extends m2 → extends (if b then m1 else m2).
Proof. by destruct b. Qed.

Create HintDb ext.

Hint Resolve extends_ret extends_raise extends_emit extends_extern
  extends_get_ci extends_put_ci extends_fresh_oid : ext.

Ltac extends_tac :=
  repeat first
    [ apply extends_bind; [|intros ?]
    | apply extends_if
    | progress eauto with ext
    | match goal with
      | |- extends (match ?x with _ => _ end) => destruct x
      end ].

Lemma extends_the_ci : extends (the_ci : M W _).
Proof. unfold the_ci. extends_tac. Qed.

Lemma extends_update_ci f : extends (update_ci f : M W _).
Proof. unfold update_ci. pose proof extends_the_ci. extends_tac. Qed.

Hint Resolve extends_the_ci extends_update_ci : ext.

Lemma extends_load (m : string) : extends (load P m).
Proof.
  unfold load, load_low_vram, Interrogator_new, load_clip_model, print.
  extends_tac.
Qed.

Lemma extends_image_convert (image : Img) fmt : extends (image_convert P image fmt).
Proof. unfold image_convert. extends_tac. Qed.

Lemma extends_dispatch (image : Img) (mode : string) :
  extends (image_to_prompt_dispatch P image mode).
Proof. unfold image_to_prompt_dispatch, ci_interrogate. extends_tac. Qed.

Hint Resolve extends_load extends_image_convert extends_dispatch : ext.

(** What [image_to_prompt] adds to the trace: the two job calls, what the
    [try] block did, and the closing calls its outcome leads to. *)
Lemma image_to_prompt_trace (image : Img) (mode m : string) (s : State W) :
  let r := image_to_prompt_try P image mode m (job_begun s) in
  trace (image_to_prompt P image mode m s).1 = trace r.1 ++ closing_events r.2.
Proof.
  simpl. rewrite image_to_prompt_run.
  destruct (image_to_prompt_try P image mode m _) as [s1 [[p|]|e]]; simpl;
    try reflexivity.
  destruct (isinstance e OutOfMemoryError); simpl; [reflexivity|].
  destruct (isinstance e RuntimeError); simpl; [reflexivity|].
  by rewrite app_nil_r.
Qed.

Lemma closing_events_no_load {A} (r : Outcome A) :
  Forall (λ ev, is_engine_load ev = false) (closing_events r).
Proof.
  destruct r as [a|e]; simpl; [by repeat constructor|].
  destruct (_ || _); by repeat constructor.
Qed.

(** With a launch flag set, the [try] block starts by asking the host to
    move its models, then collects garbage, and only then goes on. *)
Lemma prepare_offloads_first (image : Img) (m : string) (s : State W) :
  cmd_opts_lowvram P || cmd_opts_medvram P = true →
  image_to_prompt_prepare P image m s =
    match send_everything_to_cpu P (world s) with
    | (w1, Raises x) =>
        (mkState w1 (ci s) (trace s ++ [EvSendEverythingToCpu]) (next_oid s),
         Raises x)
    | (w1, Returns _) =>
        match torch_gc P w1 with
        | (w2, Raises x) =>
            (mkState w2 (ci s) (trace s ++ [EvSendEverythingToCpu; EvTorchGc])
               (next_oid s), Raises x)
        | (w2, Returns _) =>
            (load P m;; image_convert P image "RGB")
              (mkState w2 (ci s) (trace s ++ [EvSendEverythingToCpu; EvTorchGc])
                 (next_oid s))
        end
    end.
Proof.
  intros Hflags. destruct s as [w c t n].
  unfold image_to_prompt_prepare. rewrite Hflags.
  unfold lowvram_send_everything_to_cpu, devices_torch_gc.
  unfold mbind, M_bind, emit, extern. cbn [world ci trace next_oid].
  destruct (send_everything_to_cpu P w) as [w1 [[]|x]];
    cbn [world ci trace next_oid]; [|reflexivity].
  destruct (torch_gc P w1) as [w2 [[]|x]];
    cbn [world ci trace next_oid]; rewrite <- app_assoc; reflexivity.
Qed.

(** What the [try] block adds to the trace when a launch flag is set. *)
Lemma try_trace_low_vram (image : Img) (mode m : string) (s : State W) :
  cmd_opts_lowvram P || cmd_opts_medvram P = true →
  ∃ tail : list Event,
    trace (image_to_prompt_try P image mode m s).1
    = trace s ++ EvSendEverythingToCpu :: tail
    ∧ (tail = [] ∨ ∃ rest, tail = EvTorchGc :: rest)
    ∧ (tail = [] → ∃ x, (image_to_prompt_try P image mode m s).2 = Raises x).
Proof.
  intros Hflags. rewrite image_to_prompt_try_run.
  rewrite (prepare_offloads_first image m s Hflags).
  destruct (send_everything_to_cpu P (world s)) as [w1 [[]|x]].
  - destruct (torch_gc P w1) as [w2 [[]|x]].
    + set (s3 := mkState w2 _ _ _).
      assert (Hext : extends (image' ← (load P m;; image_convert P image "RGB");
                              image_to_prompt_dispatch P image' mode))
        by extends_tac.
      destruct (Hext s3) as [tr Htr]. exists (EvTorchGc :: tr).
      unfold mbind at 1, M_bind at 1 in Htr.
      destruct ((load P m;; image_convert P image "RGB") s3) as [s4 [i'|x]];
        simpl in *; rewrite Htr, <- app_assoc; (split; [done|]);
        (split; [eauto | done]).
    + exists [EvTorchGc]. simpl. split; [done|]. split; [eauto | done].
  - exists []. simpl. eauto.
Qed.

(** C9: with a low- or medium-VRAM launch flag set, every call that builds
    an engine or loads vision-model weights during [image_to_prompt] comes
    after that call's [send_everything_to_cpu] and [torch_gc], in this
    order; the request to move the other models is the first thing the [try]
    block does. *)
Theorem offload_precedes_engine_load (image : Img) (mode m : string) (s : State W) :
  cmd_opts_lowvram P || cmd_opts_medvram P = true →
  ∃ tr : list Event,
    trace (image_to_prompt P image mode m s).1 = trace s ++ tr
    ∧ tr !! 2%nat = Some EvSendEverythingToCpu
    ∧ ∀ (i : nat) (ev : Event),
        tr !! i = Some ev → is_engine_load ev = true →
        ∃ j k : nat,
          (j < k < i)%nat
          ∧ tr !! j = Some EvSendEverythingToCpu
          ∧ tr !! k = Some EvTorchGc.
Proof.
  intros Hflags.
  pose proof (image_to_prompt_trace image mode m s) as Htr. simpl in Htr.
  destruct (try_trace_low_vram image mode m (job_begun s) Hflags)
    as (tail & Htry & Hshape & _).
  pose proof (closing_events_no_load
                (image_to_prompt_try P image mode m (job_begun s)).2) as Hclose.
  set (closing := closing_events _) in *.
  exists ([EvJobBegin; EvJobSet "interrogate"; EvSendEverythingToCpu]
          ++ tail ++ closing).
  split; [|split; [done|]].
  - rewrite Htr, Htry. unfold job_begun, logged. simpl.
    by rewrite <- !app_assoc.
  - intros i ev Hi Hev.
    destruct i as [|[|[|i]]]; simpl in Hi; try (injection Hi as <-; done).
    destruct Hshape as [->|[rest ->]].
    + simpl in Hi. rewrite Forall_lookup in Hclose.
      specialize (Hclose _ _ Hi). congruence.
    + destruct i as [|i]; simpl in Hi; [injection Hi as <-; done|].
      exists 2%nat, 3%nat. repeat split; simpl; try done; lia.
Qed.

End Prompt.

Section Analysis.

Context {W Img Feat Score : Type}.
Variable P : Provider W Img Feat Score.

(** ** The dict comprehension *)

Lemma dict_of_zip_foldl (d : gmap string Score) (l : list (string * Score)) :
  dom (foldl (λ d kv, <[kv.1 := kv.2]> d) d l) = dom d ∪ list_to_set l.*1.
Proof.
  revert d. induction l as [|[k v] l IH]; intros d; simpl.
  - by rewrite (right_id_L ∅ (∪)).
  - rewrite IH, dom_insert_L, (comm_L (∪) {[k]} (dom d)).
    by rewrite (assoc_L (∪)).
Qed.

Lemma dict_of_zip_dom (ks : list string) (vs : list Score) :
  length vs = length ks →
  dom (dict_of_zip ks vs) = list_to_set ks.
Proof.
  intros Hlen. unfold dict_of_zip. rewrite dict_of_zip_foldl.
  rewrite fst_zip by lia. by rewrite dom_empty_L, (left_id_L ∅ (∪)).
Qed.

Lemma dict_of_zip_foldl_lookup (d : gmap string Score) (l : list (string * Score))
    (k : string) (v : Score) :
  foldl (λ d kv, <[kv.1 := kv.2]> d) d l !! k = Some v →
  d !! k = Some v ∨ (k, v) ∈ l.
Proof.
  revert d. induction l as [|[k' v'] l IH]; intros d; simpl; [by left|].
  intros H. destruct (IH _ H) as [Hd|Hl].
  - destruct (decide (k' = k)) as [->|Hne].
    + rewrite lookup_insert_eq in Hd. injection Hd as ->. right. left.
    + rewrite lookup_insert_ne in Hd by done. by left.
  - right. by right.
Qed.

(** Every score in the dict stands next to its label in the two lists. *)
Lemma dict_of_zip_lookup (ks : list string) (vs : list Score) (k : string) (v : Score) :
  dict_of_zip ks vs !! k = Some v →
  ∃ i : nat, ks !! i = Some k ∧ vs !! i = Some v.
Proof.
  intros H. destruct (dict_of_zip_foldl_lookup ∅ _ k v H) as [Hd|Hl].
  - by rewrite lookup_empty in Hd.
  - apply list_elem_of_lookup in Hl as [i Hi]. exists i.
    by apply lookup_zip_with_Some in Hi as (a & b & [= -> ->] & ? & ?).
Qed.

(** ** [image_analysis] *)

(** C8: a call of [image_analysis] that returns has, after [load], asked for
    the RGB image and for one feature tensor, then for the top 5 labels of
    each of the five tables, then for the similarities of each table's top
    labels and of nothing else; each of the five mappings pairs the labels
    [rank] returned with the scores [similarities] returned for them, and --
    [similarities] giving one score per label -- its keys are exactly those
    labels. *)
Theorem image_analysis_scores_top5 (image : Img) (m : string) (s s' : State W)
    (r : gmap string Score * gmap string Score * gmap string Score *
         gmap string Score * gmap string Score) :
  (∀ w e f ls w' sc,
     similarities P w e f ls = (w', Returns sc) → length sc = length ls) →
  image_analysis P image m s = (s', Returns r) →
  ∃ (s0 : State W) (eng : Interrogator) (f : Feat)
    (tops : Category → list string) (sims : Category → list Score),
    load P m s = (s0, Returns tt)
    ∧ ci s0 = Some eng
    ∧ trace s' =
        trace s0 ++ [EvConvert "RGB"; EvImageToFeatures]
        ++ map (λ t, EvRank t 5) all_categories
        ++ map (λ t, EvSimilarities (tops t)) all_categories
    ∧ (∃ w w' image', image_to_features P w eng image' = (w', Returns f))
    ∧ ∀ t : Category,
        (∃ w w', rank P w eng t f 5 = (w', Returns (tops t)))
        ∧ (∃ w w', similarities P w eng f (tops t) = (w', Returns (sims t)))
        ∧ ranks_of t r = dict_of_zip (tops t) (sims t)
        ∧ dom (ranks_of t r) = list_to_set (tops t)
        ∧ ∀ l sc, ranks_of t r !! l = Some sc →
                  ∃ i : nat, tops t !! i = Some l ∧ sims t !! i = Some sc.
Proof.
  intros Hsim H. unfold image_analysis in H.
  unfold mbind at 1, M_bind at 1 in H.
  destruct (load P m s) as [s0 [[]|x]] eqn:Hload; [|done].
  destruct (load_returns_bound P s s0 m Hload) as (eng & Hci & _).
  destruct s0 as [w0 c0 t0 n0]; simpl in Hci; subst c0.
  unfold ci_rank, ci_similarities, ci_image_to_features, image_convert,
    the_ci, get_ci, emit, extern, mbind, M_bind, mret, M_ret in H.
  cbn [world ci trace next_oid] in H.
  destruct (convert P w0 image "RGB") as [w1 [image'|x]] eqn:Hconv; [|done].
  cbn [world ci trace next_oid] in H.
  destruct (image_to_features P w1 eng image') as [w2 [f|x]] eqn:Hfeat; [|done].
  cbn [world ci trace next_oid] in H.
  destruct (rank P w2 eng mediums f 5) as [w3 [tm|x]] eqn:Hr1; [|done].
  cbn [world ci trace next_oid] in H.
  destruct (rank P w3 eng artists f 5) as [w4 [ta|x]] eqn:Hr2; [|done].
  cbn [world ci trace next_oid] in H.
  destruct (rank P w4 eng movements f 5) as [w5 [tv|x]] eqn:Hr3; [|done].
  cbn [world ci trace next_oid] in H.
  destruct (rank P w5 eng trendings f 5) as [w6 [tg|x]] eqn:Hr4; [|done].
  cbn [world ci trace next_oid] in H.
  destruct (rank P w6 eng flavors f 5) as [w7 [tf|x]] eqn:Hr5; [|done].
  cbn [world ci trace next_oid] in H.
  destruct (similarities P w7 eng f tm) as [w8 [sm|x]] eqn:Hs1; [|done].
  cbn [world ci trace next_oid] in H.
  destruct (similarities P w8 eng f ta) as [w9 [sa|x]] eqn:Hs2; [|done].
  cbn [world ci trace next_oid] in H.
  destruct (similarities P w9 eng f tv) as [w10 [sv|x]] eqn:Hs3; [|done].
  cbn [world ci trace next_oid] in H.
  destruct (similarities P w10 eng f tg) as [w11 [sg|x]] eqn:Hs4; [|done].
  cbn [world ci trace next_oid] in H.
  destruct (similarities P w11 eng f tf) as [w12 [sf|x]] eqn:Hs5; [|done].
  injection H as <- <-.
  exists (mkState w0 (Some eng) t0 n0), eng, f,
    (λ t, match t with
          | mediums => tm | artists => ta | movements => tv
          | trendings => tg | flavors => tf
          end),
    (λ t, match t with
          | mediums => sm | artists => sa | movements => sv
          | trendings => sg | flavors => sf
          end).
  split; [done|]. split; [done|]. split.
  { simpl. by rewrite <- !app_assoc. }
  split; [eauto|].
  intros t.
  assert (Hdom : ∀ ks vs w w', similarities P w eng f ks = (w', Returns vs) →
                   dom (dict_of_zip ks vs) = list_to_set ks).
  { intros ks vs w w' Hks. apply dict_of_zip_dom. eauto. }
  destruct t; simpl;
    (split; [eauto|]); (split; [eauto|]); (split; [done|]);
    (split; [eauto|]); intros l sc; apply dict_of_zip_lookup.
Qed.

End Analysis.

(** * The script on the stub provider *)

Section Unhandled.

Context {W Img Feat Score : Type}.
Variable P : Provider W Img Feat Score.

(** An exception that is no [RuntimeError] leaves [image_to_prompt] from
    inside the [try] block: nothing after the block runs. *)
Lemma uncaught_exception_propagates (image : Img) (mode m : string)
    (s s1 : State W) (e : Exc) :
  image_to_prompt_try P image mode m (job_begun s) = (s1, Raises e) →
  isinstance e OutOfMemoryError = false →
  isinstance e RuntimeError = false →
  image_to_prompt P image mode m s = (s1, Raises e).
Proof.
  intros Htry Hoom Hrt. by rewrite image_to_prompt_run, Htry, Hoom, Hrt.
Qed.

(** A mode outside the chain assigns nothing to [prompt]. *)
Lemma unknown_mode_dispatch (image : Img) (mode : string) (s : State W) :
  mode ∉ known_modes →
  image_to_prompt_dispatch P image mode s = (s, Returns None).
Proof.
  intros Hmode. unfold image_to_prompt_dispatch, known_modes in *.
  rewrite !not_elem_of_cons in Hmode. destruct Hmode as (?&?&?&?&_).
  by rewrite !bool_decide_eq_false_2 by done.
Qed.

(** With such a mode, and the engine ready, the job is ended and
    [return prompt] raises. *)
Lemma unknown_mode_raises (image image' : Img) (mode m : string) (s s1 : State W) :
  mode ∉ known_modes →
  image_to_prompt_prepare P image m (job_begun s) = (s1, Returns image') →
  image_to_prompt P image mode m s = (logged s1 [EvJobEnd], Raises prompt_unbound).
Proof.
  intros Hmode Hprep.
  rewrite image_to_prompt_run, image_to_prompt_try_run, Hprep.
  by rewrite (unknown_mode_dispatch image' mode s1 Hmode).
Qed.

End Unhandled.

(** C1: the UI sends no image; [image.convert] raises [AttributeError], which
    neither [except] clause matches, and the call leaves with the job begun
    once and never ended. *)
Theorem job_end_skipped_on_uncaught_exception :
  let run := image_to_prompt Stub.cat None "best" Stub.model_L Stub.initial in
  run.2 = Raises (mkExc AttributeError "'NoneType' object has no attribute 'convert'")
  ∧ count_event EvJobBegin (trace run.1) = 1%nat
  ∧ count_event EvJobEnd (trace run.1) = 0%nat.
Proof. vm_compute. by repeat split. Qed.

(** C2: with a mode the chain does not know and everything else in order,
    [image_to_prompt] ends the job and then raises [UnboundLocalError] where
    it reads [prompt]: no value is returned. *)
Theorem unknown_mode_returns_nothing :
  let run := image_to_prompt Stub.cat (Some "px") "foo" Stub.model_L Stub.initial in
  run.2 = Raises prompt_unbound
  ∧ count_event EvJobEnd (trace run.1) = 1%nat.
Proof. vm_compute. by repeat split. Qed.

(** ** Runs that meet the hypotheses of the theorems above *)

(** The 8 GiB card of [Stub.small] is found and the low-VRAM profile used. *)
Lemma load_low_vram_decision_witness :
  ci Stub.initial = None
  ∧ (load_low_vram Stub.small Stub.initial).2 = Returns true.
Proof.
  split; [reflexivity|].
  exact (proj1 (load_low_vram_decision Stub.small Stub.initial Stub.model_L eq_refl)).
Defined.

Lemma load_switch_keeps_one_engine_witness :
  Stub.model_L ≠ Stub.model_H
  ∧ load Stub.cat Stub.model_L Stub.initial = (Stub.loaded, Returns tt)
  ∧ ∃ e1, ci Stub.loaded = Some e1
          ∧ clip_model_name (config e1) = Stub.model_L.
Proof.
  assert (Hne : Stub.model_L ≠ Stub.model_H) by discriminate.
  assert (Hload : load Stub.cat Stub.model_L Stub.initial = (Stub.loaded, Returns tt))
    by reflexivity.
  split; [exact Hne|]. split; [exact Hload|].
  destruct (load_switch_keeps_one_engine Stub.cat Stub.initial Stub.loaded
              Stub.model_L Stub.model_H Hne Hload) as (e1 & H1 & H2 & _).
  exists e1. split; assumption.
Defined.

Lemma load_after_unload_same_name_witness :
  ∃ e, ci Stub.loaded = Some e
       ∧ ∃ e1, ci (unload Stub.cat Stub.loaded).1 = Some e1
               ∧ placed_on (clip_model e1) = cpu
               ∧ clip_offloaded e1 = true.
Proof.
  eexists. split; [reflexivity|].
  destruct (load_after_unload_same_name Stub.cat Stub.loaded _ Stub.model_L eq_refl)
    as (e1 & H1 & _ & _ & _ & H2 & _ & H3 & _).
  exists e1. repeat split; assumption.
Defined.

Lemma out_of_memory_is_caught_witness :
  (image_to_prompt Stub.oom (Some "px") "fast" Stub.model_L Stub.initial).2
  = Returns "Ran out of VRAM".
Proof.
  pose (s1 := (image_to_prompt_prepare Stub.oom (Some "px") Stub.model_L
                 (job_begun Stub.initial)).1).
  pose (s2 := (image_to_prompt_dispatch Stub.oom (Some "px/RGB") "fast" s1).1).
  pose (e := mkExc OutOfMemoryError "CUDA out of memory.").
  assert (Hprep : image_to_prompt_prepare Stub.oom (Some "px") Stub.model_L
                    (job_begun Stub.initial) = (s1, Returns (Some "px/RGB")))
    by (vm_compute; reflexivity).
  assert (Hdisp : image_to_prompt_dispatch Stub.oom (Some "px/RGB") "fast" s1
                  = (s2, Raises e))
    by (vm_compute; reflexivity).
  assert (Hoom : isinstance e OutOfMemoryError = true)
    by (vm_compute; reflexivity).
  rewrite (out_of_memory_is_caught Stub.oom (Some "px") (Some "px/RGB") "fast"
             Stub.model_L Stub.initial s1 s2 e Hprep Hdisp Hoom).
  reflexivity.
Defined.

Lemma runtime_error_is_caught_witness :
  (image_to_prompt Stub.broken (Some "px") "best" Stub.model_L Stub.initial).2
  = Returns "Exception <class 'RuntimeError'>".
Proof.
  pose (s1 := (image_to_prompt_try Stub.broken (Some "px") "best" Stub.model_L
                 (job_begun Stub.initial)).1).
  pose (e := mkExc RuntimeError "CUDA error: device-side assert triggered").
  assert (Htry : image_to_prompt_try Stub.broken (Some "px") "best" Stub.model_L
                   (job_begun Stub.initial) = (s1, Raises e))
    by (vm_compute; reflexivity).
  assert (Hrt : isinstance e RuntimeError = true) by (vm_compute; reflexivity).
  assert (Hoom : isinstance e OutOfMemoryError = false)
    by (vm_compute; reflexivity).
  rewrite (runtime_error_is_caught Stub.broken (Some "px") "best" Stub.model_L
             Stub.initial s1 e Htry Hrt Hoom).
  reflexivity.
Defined.

Lemma offload_precedes_engine_load_witness :
  cmd_opts_lowvram Stub.oom || cmd_opts_medvram Stub.oom = true
  ∧ ∃ tr, trace (image_to_prompt Stub.oom (Some "px") "best" Stub.model_L
                   Stub.initial).1 = trace Stub.initial ++ tr
          ∧ tr !! 2%nat = Some EvSendEverythingToCpu.
Proof.
  split; [reflexivity|].
  destruct (offload_precedes_engine_load Stub.oom (Some "px") "best" Stub.model_L
              Stub.initial eq_refl) as (tr & H1 & H2 & _).
  exists tr. split; assumption.
Defined.

Lemma image_analysis_scores_top5_witness :
  ∃ r,
    (image_analysis Stub.cat (Some "px") Stub.model_L Stub.initial).2 = Returns r
    ∧ dom (ranks_of artists r)
      = list_to_set (take 5 (Stub.vocabulary artists)).
Proof.
  assert (Hsim : ∀ w e f ls w' sc,
            similarities Stub.cat w e f ls = (w', Returns sc) →
            length sc = length ls).
  { intros w e f ls w' sc. simpl. intros [= _ <-]. apply length_map. }
  assert (Hret : returned (image_analysis Stub.cat (Some "px") Stub.model_L
                             Stub.initial).2 = true) by reflexivity.
  destruct (image_analysis Stub.cat (Some "px") Stub.model_L Stub.initial)
    as [s' [r|x]] eqn:Hrun; [|discriminate Hret].
  exists r. split; [reflexivity|].
  destruct (image_analysis_scores_top5 Stub.cat (Some "px") Stub.model_L
              Stub.initial s' r Hsim Hrun)
    as (s0 & eng & f & tops & sims & _ & _ & _ & _ & Ht).
  destruct (Ht artists) as ([w [w' Hrank]] & _ & _ & Hdom & _).
  injection Hrank as _ Htops. rewrite <- Htops in Hdom. exact Hdom.
Defined.

(** * More of the script *)

(** ** [get_models] *)

Lemma append_nil_l (s : string) : "" +:+ s = s.
Proof. reflexivity. Qed.

Lemma append_cons_l (c : Ascii.ascii) (a s : string) :
  String c a +:+ s = String c (a +:+ s).
Proof. reflexivity. Qed.

Lemma join_pair_inj (a b a' b' : string) :
  contains_char slash a = false →
  contains_char slash a' = false →
  a +:+ "/" +:+ b = a' +:+ "/" +:+ b' →
  a = a' ∧ b = b'.
Proof.
  revert a'. induction a as [|c a IH]; intros [|c' a'] Hc Hc' Heq;
    cbn in Hc, Hc'; rewrite ?append_cons_l, ?append_nil_l in Heq.
  - by injection Heq as ->.
  - injection Heq as <- _. by rewrite decide_True in Hc'.
  - injection Heq as -> _. by rewrite decide_True in Hc.
  - injection Heq as -> Hrest. destruct (decide (c' = slash)); [done|].
    by destruct (IH a' Hc Hc' Hrest) as [-> ->].
Qed.

(** X1: catalog entries that differ give dropdown entries that differ, as
    long as no model name contains a slash. *)
Theorem get_models_distinct (catalog : list (list string)) :
  Forall (λ x, ∃ a b, x = [a; b] ∧ contains_char slash a = false) catalog →
  NoDup catalog →
  NoDup (get_models catalog).
Proof.
  intros Hpairs Hnodup. unfold get_models.
  apply NoDup_fmap_2_strong; [|done].
  intros x y Hx Hy Heq. rewrite Forall_forall in Hpairs.
  destruct (Hpairs x Hx) as (a & b & -> & Ha).
  destruct (Hpairs y Hy) as (a' & b' & -> & Ha').
  simpl in Heq. by destruct (join_pair_inj a b a' b' Ha Ha' Heq) as [-> ->].
Qed.

(** ** The dict comprehension, again *)

Section Dict.

Context {Score : Type}.

Lemma zip_fst_take (ks : list string) (vs : list Score) :
  (zip ks vs).*1 = take (length vs) ks.
Proof.
  revert vs. induction ks as [|k ks IH]; intros [|v vs]; simpl; try done.
  by rewrite IH.
Qed.

Lemma foldl_insert_other (d : gmap string Score) (l : list (string * Score))
    (k : string) :
  k ∉ l.*1 →
  foldl (λ d kv, <[kv.1 := kv.2]> d) d l !! k = d !! k.
Proof.
  revert d. induction l as [|[k' v'] l IH]; intros d; simpl; [done|].
  rewrite not_elem_of_cons. intros [Hne Hl].
  rewrite IH by done. by rewrite lookup_insert_ne.
Qed.

Lemma foldl_insert_nodup (d : gmap string Score) (l : list (string * Score))
    (k : string) (v : Score) :
  NoDup l.*1 → (k, v) ∈ l →
  foldl (λ d kv, <[kv.1 := kv.2]> d) d l !! k = Some v.
Proof.
  revert d. induction l as [|[k' v'] l IH]; intros d; simpl.
  - intros _ H. by apply elem_of_nil in H.
  - rewrite NoDup_cons. intros [Hk' Hnd]. rewrite elem_of_cons.
    intros [[= -> ->]|Hin].
    + rewrite foldl_insert_other by done. apply lookup_insert_eq.
    + by apply IH.
Qed.

(** X10: when the labels are distinct, each label maps to the score that
    stands at its position. *)
Theorem dict_of_zip_lookup_nodup (ks : list string) (vs : list Score)
    (i : nat) (k : string) (v : Score) :
  NoDup ks →
  ks !! i = Some k →
  vs !! i = Some v →
  dict_of_zip ks vs !! k = Some v.
Proof.
  intros Hnd Hk Hv. unfold dict_of_zip. apply foldl_insert_nodup.
  - rewrite zip_fst_take. eapply sublist_NoDup; [done|apply sublist_take].
  - apply list_elem_of_lookup. exists i.
    apply lookup_zip_with_Some. eauto.
Qed.

(** X11: [zip] stops at the shorter list, so labels beyond the number of
    scores are dropped without a word: the keys are the first
    [len(scores)] labels. *)
Theorem dict_of_zip_dom_truncated (ks : list string) (vs : list Score) :
  dom (dict_of_zip ks vs) = list_to_set (take (length vs) ks).
Proof.
  unfold dict_of_zip. rewrite dict_of_zip_foldl, zip_fst_take.
  by rewrite dom_empty_L, (left_id_L ∅ (∪)).
Qed.

End Dict.

(** ** [load], the edges *)

Section LoadEdges.

Context {W Img Feat Score : Type}.
Variable P : Provider W Img Feat Score.

(** X6: once [load m] has returned, [load m] again does nothing. *)
Theorem load_twice_noop (s s1 : State W) (m : string) :
  load P m s = (s1, Returns tt) →
  load P m s1 = (s1, Returns tt).
Proof.
  intros Hload.
  destruct (load_returns_bound P s s1 m Hload) as (e & Hci & Hname).
  by apply (load_same_name P s1 e).
Qed.


(** X8: when the constructor raises, no engine is resident afterwards, and
    the next [load] calls the constructor again, for a new object. *)
Theorem load_failed_construct_retries (s s1 : State W) (m m' : string) (x : Exc) :
  ci s = None →
  load P m s = (s1, Raises x) →
  ci s1 = None
  ∧ Interrogator_init P (world s) (fresh_config P m) = (world s1, Raises x)
  ∧ next_oid s1 = S (next_oid s)
  ∧ trace (load P m' s1).1 = trace s1 ++ fresh_events P (next_oid s1) m'.
Proof.
  intros Hci Hload. rewrite (load_absent P s m Hci) in Hload.
  destruct (Interrogator_init P (world s) _) as [w' [b|y]] eqn:Hinit.
  - injection Hload as <-. discriminate.
  - injection Hload as <- <-. repeat split.
    set (s1 := mkState w' None _ _).
    rewrite (load_absent P s1 m' eq_refl).
    by destruct (Interrogator_init P (world s1) _) as [w'' [b|z]].
Qed.

End LoadEdges.

(** ** Invariants of the monad *)

Section Keeps.

Context {W : Type}.
Implicit Types I : State W → Prop.

Lemma keeps_ret {A} I (a : A) : keeps I (mret a : M W A).
Proof. by intros s. Qed.

Lemma keeps_raise {A} I (e : Exc) : keeps I (raise e : M W A).
Proof. by intros s. Qed.

Lemma keeps_get_ci I : keeps I (get_ci : M W _).
Proof. by intros s. Qed.

Lemma keeps_the_ci I : keeps I (the_ci : M W _).
Proof. intros s Hs. unfold the_ci, get_ci, mbind, M_bind. by destruct (ci s). Qed.

Lemma keeps_bind {A B} I (m : M W A) (f : A → M W B) :
  keeps I m → (∀ a, keeps I (f a)) → keeps I (m ≫= f).
Proof.
  intros Hm Hf s Hs. specialize (Hm s Hs). unfold mbind, M_bind.
  destruct (m s) as [s1 [a|e]]; simpl in *; [by apply Hf|done].
Qed.

Lemma keeps_if {A} I (b : bool) (m1 m2 : M W A) :
  keeps I m1 → keeps I m2 → keeps I (if b then m1 else m2).
Proof. by destruct b. Qed.

Lemma keeps_try {A} I (body : M W A) (cs : list (Clause W A)) :
  keeps I body →
  Forall (λ ch, ∀ e, keeps I (ch.2 e)) cs →
  keeps I (try_except body cs).
Proof.
  intros Hbody Hcs s Hs. specialize (Hbody s Hs). unfold try_except.
  destruct (body s) as [s1 [a|e]]; simpl in *; [done|].
  induction Hcs as [|[c h] cs Hh _ IH]; simpl; [done|].
  destruct (isinstance e c); [by apply Hh|done].
Qed.

Lemma keeps_try2 {A} I (body : M W A) c1 h1 c2 h2 :
  keeps I body → (∀ e, keeps I (h1 e)) → (∀ e, keeps I (h2 e)) →
  keeps I (try_except body [(c1, h1); (c2, h2)]).
Proof. intros Hb H1 H2. apply keeps_try; [done|]. by repeat constructor. Qed.

(** Moving along the trace. *)
Lemma since_refl (allowed : Event → bool) (s : State W) : since allowed s s.
Proof. exists []. by rewrite app_nil_r. Qed.

Lemma since_more (allowed : Event → bool) (s0 s s' : State W) (tr : list Event) :
  since allowed s0 s →
  trace s' = trace s ++ tr →
  Forall (λ ev, allowed ev = true) tr →
  since allowed s0 s'.
Proof.
  intros (tr0 & Htr0 & Hall) Htr Hok. exists (tr0 ++ tr).
  rewrite Htr, Htr0, app_assoc. split; [done|]. by apply Forall_app.
Qed.

Lemma since_emit (allowed : Event → bool) (s0 : State W) (ev : Event) :
  allowed ev = true → keeps (since allowed s0) (emit ev).
Proof.
  intros Hev s Hs. apply (since_more allowed s0 s _ [ev]); [done|done|].
  by constructor.
Qed.

Lemma since_same_trace {A} (allowed : Event → bool) (s0 : State W) (m : M W A) :
  (∀ s, trace (m s).1 = trace s) → keeps (since allowed s0) m.
Proof.
  intros Hm s Hs. apply (since_more allowed s0 s _ []); [done| |done].
  by rewrite Hm, app_nil_r.
Qed.

Lemma since_extern {A} (allowed : Event → bool) (s0 : State W)
    (f : W → W * Outcome A) :
  keeps (since allowed s0) (extern f).
Proof.
  apply since_same_trace. intros s. unfold extern. by destruct (f (world s)).
Qed.

Lemma since_put_ci (allowed : Event → bool) (s0 : State W) c :
  keeps (since allowed s0) (put_ci c).
Proof. by apply since_same_trace. Qed.

Lemma since_fresh_oid (allowed : Event → bool) (s0 : State W) :
  keeps (since allowed s0) fresh_oid.
Proof. by apply since_same_trace. Qed.

End Keeps.

Create HintDb keeps.

#[export] Hint Resolve keeps_ret keeps_raise keeps_get_ci keeps_the_ci
  since_extern since_put_ci since_fresh_oid : keeps.

(** Walks through a computation of the script: [known] closes the calls
    already dealt with, [allowed ev = true] is left to [side] for each call
    the script makes itself. *)
Ltac keeps_walk known side :=
  repeat first
    [ known
    | progress eauto with keeps
    | apply since_emit; side
    | apply keeps_bind; [|intros ?]
    | apply keeps_if
    | apply keeps_try2; [|intros ?|intros ?]
    | match goal with
      | |- keeps _ (match ?x with _ => _ end) => destruct x
      end ].

Section Untracked.

Context {W Img Feat Score : Type}.
Variable P : Provider W Img Feat Score.

Lemma load_since (allowed : Event → bool) (s0 : State W) (m : string) :
  (∀ line, allowed (EvPrint line) = true) →
  allowed EvApplyLowVramDefaults = true →
  (∀ i c, allowed (EvConstruct i c) = true) →
  (∀ i n, allowed (EvLoadClipModel i n) = true) →
  keeps (since allowed s0) (load P m).
Proof.
  intros Hp Ha Hc Hl.
  unfold load, load_low_vram, Interrogator_new, load_clip_model, update_ci, print.
  keeps_walk fail ltac:(solve [auto]).
Qed.

(** X12: [image_analysis] never touches the host's job tracker and never
    asks the host to make room, whatever the launch flags and however it
    ends. *)
Theorem image_analysis_untracked (image : Img) (m : string) (s : State W) :
  ∃ tr : list Event,
    trace (image_analysis P image m s).1 = trace s ++ tr
    ∧ Forall (λ ev, is_job_event ev = false ∧ is_host_offload ev = false) tr.
Proof.
  assert (H : keeps (since analysis_allowed s) (image_analysis P image m)).
  { unfold image_analysis, ci_rank, ci_similarities, ci_image_to_features,
      image_convert.
    pose proof (load_since analysis_allowed s m) as Hload.
    keeps_walk ltac:(apply Hload; done) ltac:(reflexivity). }
  destruct (H s (since_refl _ s)) as (tr & Htr & Hall).
  exists tr. split; [done|].
  eapply Forall_impl; [exact Hall|]. intros ev. unfold analysis_allowed.
  by destruct (is_job_event ev), (is_host_offload ev).
Qed.

(** The [try] block leaves the job tracker alone. *)
Lemma try_since_no_job (image : Img) (mode m : string) (s0 : State W) :
  keeps (since (λ ev, negb (is_job_event ev)) s0)
    (image_to_prompt_try P image mode m).
Proof.
  unfold image_to_prompt_try, image_to_prompt_prepare, image_to_prompt_dispatch,
    lowvram_send_everything_to_cpu, devices_torch_gc, image_convert,
    ci_interrogate.
  pose proof (load_since (λ ev, negb (is_job_event ev)) s0 m) as Hload.
  keeps_walk ltac:(apply Hload; done) ltac:(reflexivity).
Qed.

(** X4: a call of [image_to_prompt] that returns a value has told the job
    tracker exactly this: begin and the job name first, end last, nothing in
    between. *)
Theorem job_signals_paired_on_return (image : Img) (mode m : string)
    (s : State W) (p : string) :
  (image_to_prompt P image mode m s).2 = Returns p →
  ∃ mid : list Event,
    trace (image_to_prompt P image mode m s).1
    = trace s ++ [EvJobBegin; EvJobSet "interrogate"] ++ mid ++ [EvJobEnd]
    ∧ Forall (λ ev, is_job_event ev = false) mid.
Proof.
  intros Hret.
  destruct (try_since_no_job image mode m (job_begun s) (job_begun s)
              (since_refl _ _)) as (tr & Htr & Hall).
  assert (Hquiet : Forall (λ ev, is_job_event ev = false) tr).
  { eapply Forall_impl; [exact Hall|]. intros ev. apply negb_true_iff. }
  rewrite image_to_prompt_run in Hret |- *.
  destruct (image_to_prompt_try P image mode m (job_begun s))
    as [s1 [[q|]|e]]; simpl in *.
  - exists tr. rewrite Htr, <- !app_assoc. done.
  - done.
  - destruct (isinstance e OutOfMemoryError);
      [|destruct (isinstance e RuntimeError); [|done]];
      exists (tr ++ [EvPrint (exc_str e)]); simpl;
      rewrite Htr, <- !app_assoc; (split; [done|]);
      apply Forall_app; split; try done; by repeat constructor.
Qed.

End Untracked.

(** ** The resident engine stays *)

Section Steady.

Context {W Img Feat Score : Type}.
Variable P : Provider W Img Feat Score.

Lemma steady_refl (s : State W) (e : Interrogator) :
  ci s = Some e → steady s s.
Proof. intros Hci. split; [apply since_refl|]. split; [done|]. by exists e, e. Qed.

Lemma steady_emit (s0 : State W) (ev : Event) :
  is_construct ev = false → keeps (steady s0) (emit ev).
Proof.
  intros Hev s (Hs & Hn & Hci). split; [|done].
  apply since_emit; [|done]. by rewrite Hev.
Qed.

Lemma steady_extern {A} (s0 : State W) (f : W → W * Outcome A) :
  keeps (steady s0) (extern f).
Proof.
  intros s (Hs & Hn & Hci). split; [by apply since_extern|].
  unfold extern. by destruct (f (world s)).
Qed.

Lemma steady_load (s0 : State W) (m : string) : keeps (steady s0) (load P m).
Proof.
  intros s (Hs & Hn & e0 & e & Hci0 & Hci & Hid).
  destruct (decide (m = clip_model_name (config e))) as [Heq|Hne].
  - rewrite (load_same_name P s e m Hci Heq). simpl.
    split; [done|]. split; [done|]. by exists e0, e.
  - rewrite (load_other_name P s e m Hci Hne).
    destruct (create_clip_model P (world s) _) as [w' [cm|x]]; simpl;
      (split; [by apply (since_more _ s0 s _ [EvLoadClipModel (oid e) m]);
                 [| |repeat constructor]|]);
      (split; [done|]); eexists e0, _; by repeat split.
Qed.

Lemma steady_unload (s0 : State W) : keeps (steady s0) (unload P).
Proof.
  intros s (Hs & Hn & e0 & e & Hci0 & Hci & Hid).
  rewrite (unload_resident P s e Hci).
  destruct (torch_gc P (world s)) as [w' r]; simpl.
  split; [by eapply (since_more _ s0 s); [| |repeat constructor]|].
  split; [done|]. by exists e0, (offloaded e).
Qed.

Lemma steady_image_to_prompt (s0 : State W) (image : Img) (mode m : string) :
  keeps (steady s0) (image_to_prompt P image mode m).
Proof.
  unfold image_to_prompt, image_to_prompt_try, image_to_prompt_prepare,
    image_to_prompt_dispatch, lowvram_send_everything_to_cpu,
    devices_torch_gc, image_convert, ci_interrogate, on_out_of_memory,
    on_runtime_error, return_local, print.
  keeps_walk
    ltac:(first [ apply steady_load | apply steady_extern
                | apply steady_emit; reflexivity ])
    ltac:(fail).
Qed.

Lemma steady_image_analysis (s0 : State W) (image : Img) (m : string) :
  keeps (steady s0) (image_analysis P image m).
Proof.
  unfold image_analysis, ci_rank, ci_similarities, ci_image_to_features,
    image_convert.
  keeps_walk
    ltac:(first [ apply steady_load | apply steady_extern
                | apply steady_emit; reflexivity ])
    ltac:(fail).
Qed.

(** X5: once an engine is resident, no series of clicks on Generate,
    Unload and Analyze -- whatever the images, modes and model names, and
    however each handler ends -- replaces it, drops it or builds another:
    the same object is resident at the end and the constructor was never
    called. *)
Theorem resident_engine_is_kept (cs : list (Call Img)) (s : State W)
    (e : Interrogator) :
  ci s = Some e →
  ∃ (e' : Interrogator) (tr : list Event),
    ci (clicks P cs s) = Some e'
    ∧ oid e' = oid e
    ∧ next_oid (clicks P cs s) = next_oid s
    ∧ trace (clicks P cs s) = trace s ++ tr
    ∧ Forall (λ ev, is_construct ev = false) tr.
Proof.
  intros Hci.
  assert (H : ∀ s1, steady s s1 → steady s (clicks P cs s1)).
  { induction cs as [|c cs IH]; intros s1 Hs1; simpl; [done|].
    apply IH. destruct c; simpl.
    - by apply steady_image_to_prompt.
    - by apply steady_unload.
    - by apply steady_image_analysis. }
  destruct (H s (steady_refl s e Hci))
    as ((tr & Htr & Hall) & Hn & e0 & e' & H0 & H1 & Hid).
  exists e', tr. rewrite Hci in H0. injection H0 as <-.
  repeat split; try done.
  eapply Forall_impl; [exact Hall|]. intros ev. apply negb_true_iff.
Qed.

End Steady.

(** ** Where exceptions come from *)

Section Origins.

Context {W Img Feat Score : Type}.
Variable P : Provider W Img Feat Score.

Implicit Types Q : option Interrogator → Prop.
Implicit Types exn : Exc → Prop.

Lemma ro_ret {A} Q exn (a : A) : raises_only Q (mret a : M W A) Q exn.
Proof. by intros s. Qed.

Lemma ro_emit Q exn (ev : Event) : raises_only Q (emit ev : M W unit) Q exn.
Proof. by intros s. Qed.

Lemma ro_extern {A} Q exn (f : W → W * Outcome A) :
  (∀ w w' e, f w = (w', Raises e) → exn e) →
  raises_only Q (extern f) Q exn.
Proof.
  intros Hf s Hs. unfold extern.
  destruct (f (world s)) as [w' [a|e]] eqn:Hfw; simpl; eauto.
Qed.

Lemma ro_the_ci exn : raises_only is_Some (the_ci : M W _) is_Some exn.
Proof.
  intros s Hs. unfold the_ci, get_ci, mbind, M_bind, mret, M_ret.
  destruct (ci s) as [e|] eqn:He; simpl.
  - rewrite He. by exists e.
  - by destruct Hs.
Qed.

Lemma ro_bind {A B} Q1 Q2 Q3 exn (m : M W A) (f : A → M W B) :
  raises_only Q1 m Q2 exn →
  (∀ a, raises_only Q2 (f a) Q3 exn) →
  raises_only Q1 (m ≫= f) Q3 exn.
Proof.
  intros Hm Hf s Hs. specialize (Hm s Hs). unfold mbind, M_bind.
  destruct (m s) as [s1 [a|e]]; [by apply Hf|done].
Qed.

Lemma ro_if {A} Q1 Q2 exn (b : bool) (m1 m2 : M W A) :
  raises_only Q1 m1 Q2 exn → raises_only Q1 m2 Q2 exn →
  raises_only Q1 (if b then m1 else m2) Q2 exn.
Proof. by destruct b. Qed.

(** [load] returns with an engine resident, or raises what the constructor
    or the weight loader raised. *)
Lemma ro_load Q (m : string) :
  raises_only Q (load P m) is_Some (provider_raises P).
Proof.
  intros s _. destruct (ci s) as [e|] eqn:Hci.
  - destruct (decide (m = clip_model_name (config e))) as [Heq|Hne].
    + rewrite (load_same_name P s e m Hci Heq). by rewrite Hci.
    + rewrite (load_other_name P s e m Hci Hne).
      destruct (create_clip_model P (world s) _) as [w' [cm|x]] eqn:Hcm;
        [done|]. by eapply raised_by_create_clip_model.
  - rewrite (load_absent P s m Hci).
    destruct (Interrogator_init P (world s) _) as [w' [b|x]] eqn:Hinit;
      [done|]. by eapply raised_by_init.
Qed.

(** Walks through a computation, blaming each outside call on its routine. *)
Ltac origins_walk :=
  repeat first
    [ apply ro_load
    | apply ro_the_ci
    | apply ro_ret
    | apply ro_emit
    | apply ro_extern; intros ? ? ? ?; econstructor; eassumption
    | eapply ro_bind; [|intros ?]
    | apply ro_if ].


Lemma ro_prepare (image : Img) (m : string) :
  raises_only (λ _, True) (image_to_prompt_prepare P image m) is_Some
    (provider_raises P).
Proof.
  unfold image_to_prompt_prepare, lowvram_send_everything_to_cpu,
    devices_torch_gc, image_convert.
  origins_walk.
Qed.

Lemma ro_dispatch (image : Img) (mode : string) :
  raises_only is_Some (image_to_prompt_dispatch P image mode) is_Some
    (provider_raises P).
Proof.
  unfold image_to_prompt_dispatch, ci_interrogate.
  origins_walk.
Qed.


(** When the chain assigns [prompt], the value is what the routine listed
    for the mode returned. *)
Lemma dispatch_returns_some (image : Img) (mode p : string) (s s' : State W) :
  image_to_prompt_dispatch P image mode s = (s', Returns (Some p)) →
  ∃ r eng, (mode, r) ∈ mode_routines
           ∧ ci s = Some eng
           ∧ interrogate_with P r (world s) eng image = (world s', Returns p).
Proof.
  destruct s as [w [eng|] t n];
    unfold image_to_prompt_dispatch, mode_routines;
    repeat case_bool_decide; subst; run; try done;
    match goal with
    | |- context [interrogate_with P ?r ?w ?e ?i] =>
        destruct (interrogate_with P r w e i) as [w' [q|x]] eqn:Hr; simpl
    end; try done;
    intros [= <- <-]; eexists _, eng; simpl; (split; [|done]);
    repeat first [ apply list_elem_of_here | apply list_elem_of_further ].
Qed.


(** X3: the string [image_to_prompt] returns is what the routine listed for
    the mode returned, or "Ran out of VRAM" after an out-of-memory error, or
    "Exception " and the class of a [RuntimeError]. *)
Theorem prompt_result_shape (image : Img) (mode m : string) (s : State W)
    (p : string) :
  (image_to_prompt P image mode m s).2 = Returns p →
  (∃ r w eng image' w',
     (mode, r) ∈ mode_routines
     ∧ interrogate_with P r w eng image' = (w', Returns p))
  ∨ (p = "Ran out of VRAM" ∧ ∃ e, provider_raises P e
                                 ∧ isinstance e OutOfMemoryError = true)
  ∨ (∃ e, provider_raises P e
          ∧ isinstance e RuntimeError = true
          ∧ isinstance e OutOfMemoryError = false
          ∧ p = "Exception " +:+ type_repr (exc_type e)).
Proof.
  rewrite image_to_prompt_run, image_to_prompt_try_run.
  pose proof (ro_prepare image m (job_begun s) I) as Hprep.
  assert (Hcaught : ∀ (x : Exc) (s1 : State W),
            provider_raises P x →
            (if isinstance x OutOfMemoryError
             then (logged s1 [EvPrint (exc_str x); EvJobEnd],
                   Returns "Ran out of VRAM")
             else if isinstance x RuntimeError
                  then (logged s1 [EvPrint (exc_str x); EvJobEnd],
                        Returns ("Exception " +:+ type_repr (exc_type x)))
                  else (s1, Raises x)).2 = Returns p →
            (p = "Ran out of VRAM"
             ∧ ∃ e, provider_raises P e ∧ isinstance e OutOfMemoryError = true)
            ∨ (∃ e, provider_raises P e
                    ∧ isinstance e RuntimeError = true
                    ∧ isinstance e OutOfMemoryError = false
                    ∧ p = "Exception " +:+ type_repr (exc_type e))).
  { intros x s1 Hx.
    destruct (isinstance x OutOfMemoryError) eqn:Hoom; simpl.
    - intros [= <-]. left. eauto.
    - destruct (isinstance x RuntimeError) eqn:Hrt; simpl; [|done].
      intros [= <-]. right. exists x. auto. }
  destruct (image_to_prompt_prepare P image m (job_begun s))
    as [s1 [image'|x]].
  - pose proof (ro_dispatch image' mode s1 Hprep) as Hdisp.
    destruct (image_to_prompt_dispatch P image' mode s1)
      as [s2 [[q|]|x]] eqn:Hd.
    + simpl. intros [= <-]. left.
      destruct (dispatch_returns_some image' mode q s1 s2 Hd)
        as (r & eng & Hmode & _ & Hr).
      by exists r, (world s1), eng, image', (world s2).
    + done.
    + intros H. right. by apply (Hcaught x s2).
  - intros H. right. by apply (Hcaught x s1).
Qed.

End Origins.

(** ** The way through [image_to_prompt] *)

Section Through.

Context {W Img Feat Score : Type}.
Variable P : Provider W Img Feat Score.

Lemma dispatch_known (image : Img) (mode : string) (r : Routine) (s : State W)
    (eng : Interrogator) :
  (mode, r) ∈ mode_routines →
  ci s = Some eng →
  image_to_prompt_dispatch P image mode s =
    let '(w', o) := interrogate_with P r (world s) eng image in
    (mkState w' (ci s) (trace s ++ [EvInterrogate r]) (next_oid s),
     match o with
     | Returns p => Returns (Some p)
     | Raises e => Raises e
     end).
Proof.
  intros Hmode Hci. destruct s as [w c t n]; simpl in Hci; subst c.
  unfold mode_routines in Hmode.
  repeat (apply elem_of_cons in Hmode as [[= -> ->]|Hmode]);
    [ | | | | by apply elem_of_nil in Hmode ];
    unfold image_to_prompt_dispatch; simpl; run;
    by destruct (interrogate_with P _ w eng image) as [w' [p|e]].
Qed.

(** X13: with the engine ready and the image normalised, a mode of the
    chain whose routine returns [p] makes [image_to_prompt] call that
    routine once, end the job and return [p]. *)
Theorem prompt_is_routine_result (image image' : Img) (mode m : string)
    (r : Routine) (s s1 : State W) (eng : Interrogator) (w' : W) (p : string) :
  image_to_prompt_prepare P image m (job_begun s) = (s1, Returns image') →
  (mode, r) ∈ mode_routines →
  ci s1 = Some eng →
  interrogate_with P r (world s1) eng image' = (w', Returns p) →
  image_to_prompt P image mode m s =
    (mkState w' (ci s1) (trace s1 ++ [EvInterrogate r; EvJobEnd]) (next_oid s1),
     Returns p).
Proof.
  intros Hprep Hmode Hci Hr.
  rewrite image_to_prompt_run, image_to_prompt_try_run, Hprep.
  rewrite (dispatch_known image' mode r s1 eng Hmode Hci), Hr.
  unfold logged. simpl. by rewrite <- app_assoc.
Qed.

(** X14: with neither launch flag set, [image_to_prompt] never asks the
    host to move its models or to collect garbage. *)
Theorem no_offload_without_flags (image : Img) (mode m : string) (s : State W) :
  cmd_opts_lowvram P || cmd_opts_medvram P = false →
  ∃ tr : list Event,
    trace (image_to_prompt P image mode m s).1 = trace s ++ tr
    ∧ Forall (λ ev, is_host_offload ev = false) tr.
Proof.
  intros Hflags.
  assert (H : keeps (since (λ ev, negb (is_host_offload ev)) s)
                (image_to_prompt P image mode m)).
  { unfold image_to_prompt, image_to_prompt_try, image_to_prompt_prepare,
      image_to_prompt_dispatch, image_convert, ci_interrogate,
      on_out_of_memory, on_runtime_error, return_local, print.
    rewrite Hflags.
    pose proof (load_since P (λ ev, negb (is_host_offload ev)) s m) as Hload.
    keeps_walk ltac:(apply Hload; done) ltac:(reflexivity). }
  destruct (H s (since_refl _ s)) as (tr & Htr & Hall).
  exists tr. split; [done|].
  eapply Forall_impl; [exact Hall|]. intros ev. apply negb_true_iff.
Qed.

End Through.

(** ** Runs that meet the hypotheses of this part *)

Lemma get_models_distinct_witness : NoDup (get_models Faulty.catalog).
Proof.
  apply get_models_distinct.
  - repeat constructor; eexists _, _; (split; reflexivity).
  - apply (bool_decide_unpack _). vm_compute. exact I.
Defined.


Lemma prompt_result_shape_witness :
  (image_to_prompt Stub.cat (Some "px") "best" Stub.model_L Stub.initial).2
  = Returns "a photo of a cat"
  ∧ ((∃ r w eng image' w',
        ("best", r) ∈ mode_routines
        ∧ interrogate_with Stub.cat r w eng image'
          = (w', Returns "a photo of a cat"))
     ∨ ("a photo of a cat" = "Ran out of VRAM"
        ∧ ∃ e, provider_raises Stub.cat e
               ∧ isinstance e OutOfMemoryError = true)
     ∨ (∃ e, provider_raises Stub.cat e
             ∧ isinstance e RuntimeError = true
             ∧ isinstance e OutOfMemoryError = false
             ∧ "a photo of a cat" = "Exception " +:+ type_repr (exc_type e))).
Proof.
  assert (Hrun : (image_to_prompt Stub.cat (Some "px") "best" Stub.model_L
                    Stub.initial).2 = Returns "a photo of a cat")
    by (vm_compute; reflexivity).
  split; [exact Hrun|].
  exact (prompt_result_shape Stub.cat (Some "px") "best" Stub.model_L
           Stub.initial "a photo of a cat" Hrun).
Defined.

Lemma job_signals_paired_on_return_witness :
  (image_to_prompt Stub.cat (Some "px") "best" Stub.model_L Stub.initial).2
  = Returns "a photo of a cat"
  ∧ ∃ mid,
      trace (image_to_prompt Stub.cat (Some "px") "best" Stub.model_L
               Stub.initial).1
      = trace Stub.initial ++ [EvJobBegin; EvJobSet "interrogate"] ++ mid
        ++ [EvJobEnd]
      ∧ Forall (λ ev, is_job_event ev = false) mid.
Proof.
  assert (Hrun : (image_to_prompt Stub.cat (Some "px") "best" Stub.model_L
                    Stub.initial).2 = Returns "a photo of a cat")
    by (vm_compute; reflexivity).
  split; [exact Hrun|].
  exact (job_signals_paired_on_return Stub.cat (Some "px") "best" Stub.model_L
           Stub.initial "a photo of a cat" Hrun).
Defined.

Lemma resident_engine_is_kept_witness :
  ci Stub.loaded = Some Faulty.engine
  ∧ ∃ e', ci (clicks Stub.cat
                [ClickUnload; ClickGenerate (Some "px") "fast" Stub.model_H;
                 ClickAnalyze None Stub.model_L]
                Stub.loaded) = Some e'
          ∧ oid e' = oid Faulty.engine.
Proof.
  assert (Hci : ci Stub.loaded = Some Faulty.engine) by (vm_compute; reflexivity).
  split; [exact Hci|].
  destruct (resident_engine_is_kept Stub.cat
              [ClickUnload; ClickGenerate (Some "px") "fast" Stub.model_H;
               ClickAnalyze None Stub.model_L]
              Stub.loaded Faulty.engine Hci) as (e' & tr & H1 & H2 & _).
  exists e'. split; assumption.
Defined.

Lemma load_twice_noop_witness :
  load Stub.cat Stub.model_L Stub.initial = (Stub.loaded, Returns tt)
  ∧ load Stub.cat Stub.model_L Stub.loaded = (Stub.loaded, Returns tt).
Proof.
  assert (Hload : load Stub.cat Stub.model_L Stub.initial
                  = (Stub.loaded, Returns tt)) by (vm_compute; reflexivity).
  split; [exact Hload|].
  exact (load_twice_noop Stub.cat Stub.initial Stub.loaded Stub.model_L Hload).
Defined.


Lemma load_failed_construct_retries_witness :
  ci Stub.initial = None
  ∧ ci (load Faulty.no_engine Stub.model_L Stub.initial).1 = None.
Proof.
  assert (Hrun : load Faulty.no_engine Stub.model_L Stub.initial
                 = ((load Faulty.no_engine Stub.model_L Stub.initial).1,
                    Raises (mkExc OutOfMemoryError "CUDA out of memory.")))
    by (vm_compute; reflexivity).
  split; [reflexivity|].
  exact (proj1 (load_failed_construct_retries Faulty.no_engine Stub.initial _
                  Stub.model_L Stub.model_H _ eq_refl Hrun)).
Defined.


Lemma dict_of_zip_lookup_nodup_witness :
  dict_of_zip ["monet"; "dali"; "klee"] [31; 27; 24] !! "dali" = Some 27.
Proof.
  apply (dict_of_zip_lookup_nodup ["monet"; "dali"; "klee"] [31; 27; 24] 1).
  - apply (bool_decide_unpack _). vm_compute. exact I.
  - reflexivity.
  - reflexivity.
Defined.

Lemma prompt_is_routine_result_witness :
  (image_to_prompt Stub.cat (Some "px") "negative" Stub.model_L Stub.initial).2
  = Returns "a photo of a cat".
Proof.
  pose (s1 := (image_to_prompt_prepare Stub.cat (Some "px") Stub.model_L
                 (job_begun Stub.initial)).1).
  assert (Hprep : image_to_prompt_prepare Stub.cat (Some "px") Stub.model_L
                    (job_begun Stub.initial) = (s1, Returns (Some "px/RGB")))
    by (vm_compute; reflexivity).
  assert (Hmode : ("negative", InterrogateNegative) ∈ mode_routines)
    by (apply (bool_decide_unpack _); vm_compute; exact I).
  assert (Hci : ci s1 = Some Faulty.engine) by (vm_compute; reflexivity).
  assert (Hr : interrogate_with Stub.cat InterrogateNegative (world s1)
                 Faulty.engine (Some "px/RGB")
               = (S (world s1), Returns "a photo of a cat"))
    by (vm_compute; reflexivity).
  rewrite (prompt_is_routine_result Stub.cat (Some "px") (Some "px/RGB")
             "negative" Stub.model_L InterrogateNegative Stub.initial s1
             Faulty.engine _ _ Hprep Hmode Hci Hr).
  reflexivity.
Defined.

Lemma no_offload_without_flags_witness :
  cmd_opts_lowvram Stub.cat || cmd_opts_medvram Stub.cat = false
  ∧ ∃ tr, trace (image_to_prompt Stub.cat (Some "px") "best" Stub.model_L
                   Stub.initial).1 = trace Stub.initial ++ tr
          ∧ Forall (λ ev, is_host_offload ev = false) tr.
Proof.
  split; [reflexivity|].
  exact (no_offload_without_flags Stub.cat (Some "px") "best" Stub.model_L
           Stub.initial eq_refl).
Defined.
